(** * Seed issues from a spreadsheet: the idempotent upsert of
      [tools/seed_issues_from_excel.py]

    The program reads a workbook, makes sure the labels it needs exist in
    the tracker, looks every row up by its seed label and creates the
    issues that are missing.  It is embedded here as a small monad over

    - a _world_: the state of everything behind [requests.request], with
      the function that answers a request left as a parameter, and
    - a _trace_: the calls the program makes ([requests.request],
      [time.sleep], [print], the report file), in the order it makes them.

    The [while True] of [find_issue_by_seed] takes fuel; a run that uses it
    up ends in [OutOfFuel], which is neither a return nor an exception. *)

From Stdlib Require Import String Ascii List ZArith Bool Lia DecimalString.
Import ListNotations.

Local Open Scope string_scope.
Local Open Scope list_scope.
Local Open Scope Z_scope.

(** ** Python strings

    A [string] holds the UTF-8 bytes of a Python [str].  The operations
    below are the ones the program uses: [endswith], [in], [lower] and
    [strip]. *)

Notation "a +++ b" := (String.append a b) (at level 60, right associativity).

Definition nl : string := String (ascii_of_nat 10) EmptyString.

(** [string_of_bytes [194; 160]] is the string of those bytes. *)
Fixpoint string_of_bytes (l : list nat) : string :=
  match l with
  | [] => EmptyString
  | b :: l' => String (ascii_of_nat b) (string_of_bytes l')
  end.

Fixpoint rev_string (s acc : string) : string :=
  match s with
  | EmptyString => acc
  | String c s' => rev_string s' (String c acc)
  end.

(** [s.startswith(p)] *)
Definition startswith (s p : string) : bool := String.prefix p s.

(** [s.endswith(p)] *)
Definition endswith (s p : string) : bool :=
  String.prefix (rev_string p EmptyString) (rev_string s EmptyString).

(** [sub in s] *)
Fixpoint contains (sub s : string) : bool :=
  String.prefix sub s ||
  match s with
  | EmptyString => false
  | String _ s' => contains sub s'
  end.

(** [s.lower()].  Only the letters A to Z of the byte string change; no
    other code point lowers to an ASCII letter of ["rate limit"], the one
    text the program looks for in a lowered string. *)
Definition lower_ascii (c : ascii) : ascii :=
  let n := nat_of_ascii c in
  if (Nat.leb 65 n && Nat.leb n 90)%bool then ascii_of_nat (n + 32) else c.

Fixpoint lower (s : string) : string :=
  match s with
  | EmptyString => EmptyString
  | String c s' => String (lower_ascii c) (lower s')
  end.

(** The code points for which [str.isspace] holds, as UTF-8 byte strings:
    U+0009 to U+000D, U+001C to U+0020, U+0085, U+00A0, U+1680, U+2000 to
    U+200A, U+2028, U+2029, U+202F, U+205F and U+3000. *)
Definition whitespace : list string :=
  map string_of_bytes
    ([[9]; [10]; [11]; [12]; [13]; [28]; [29]; [30]; [31]; [32];
      [194; 133]; [194; 160]; [225; 154; 128]] ++
     map (fun b => [226; 128; b]) (seq 128 11) ++
     [[226; 128; 168]; [226; 128; 169]; [226; 128; 175];
      [226; 129; 159]; [227; 128; 128]])%list%nat.

(** Drops the first [n] bytes. *)
Fixpoint drop (n : nat) (s : string) : string :=
  match n, s with
  | O, _ => s
  | S n', String _ s' => drop n' s'
  | S _, EmptyString => EmptyString
  end.

(** The white space a string starts with, if any: its length in bytes. *)
Definition leading_space (ws : list string) (s : string) : option nat :=
  option_map String.length (List.find (fun w => String.prefix w s) ws).

(** [s.lstrip()], over the given encodings of white space.  [fuel] bounds
    the number of code points dropped; the length of [s] is enough. *)
Fixpoint lstrip_with (ws : list string) (fuel : nat) (s : string) : string :=
  match fuel with
  | O => s
  | S fuel' =>
      match leading_space ws s with
      | Some n => lstrip_with ws fuel' (drop n s)
      | None => s
      end
  end.

Definition lstrip (s : string) : string :=
  lstrip_with whitespace (String.length s) s.

(** [s.rstrip()]: the same from the right, on the reversed bytes. *)
Definition rstrip (s : string) : string :=
  rev_string
    (lstrip_with (map (fun w => rev_string w EmptyString) whitespace)
       (String.length s) (rev_string s EmptyString))
    EmptyString.

(** [s.strip()] *)
Definition strip (s : string) : string := rstrip (lstrip s).

(** [str(n)] for an integer. *)
Definition str_int (n : Z) : string := NilZero.string_of_int (Z.to_int n).

(** [bool(s)] for a string: the empty string is falsy. *)
Definition truthy (s : string) : bool := negb (String.eqb s "").

(** ** Data

    What travels between the program, the [requests] library and the
    tracker. *)

(** A JSON value of a request: a string, an integer or a list of strings. *)
Inductive Value :=
| VStr (s : string)
| VInt (n : Z)
| VList (l : list string).

Definition Dict := list (string * Value).

(** The keyword arguments [gh] passes on: [json=payload] or
    [params={...}]. *)
Definition Kwargs := list (string * Dict).

Definition Headers := list (string * string).

(** An entry of the tracker's issue listing, with the three things the
    program reads from it: whether the key ["pull_request"] is present, the
    names of [it.get("labels", [])], and [it["html_url"]].  The listing
    schema of the tracker gives every entry a URL and every label a name. *)
Record Issue := mkIssue {
  pull_request : bool;
  labels : list string;
  html_url : string
}.

(** A decoded response body: an array of issue entries, or an object with
    string fields. *)
Inductive Json :=
| JArray (items : list Issue)
| JObject (fields : list (string * string)).

(** What [r.json()] raises for a body that is not JSON: the message of
    the decoder and the place it stopped at. *)
Record DecodeError := mkDecodeError {
  decode_msg : string;
  lineno : Z;
  colno : Z;
  pos : Z
}.

(** [str(e)] for that error:
    ["<msg>: line <lineno> column <colno> (char <pos>)"]. *)
Definition str_decode_error (e : DecodeError) : string :=
  decode_msg e +++ ": line " +++ str_int (lineno e)
  +++ " column " +++ str_int (colno e)
  +++ " (char " +++ str_int (pos e) +++ ")".

(** A [requests.Response]: [r.status_code], [r.reason], [r.url], [r.text]
    and [r.json()]: the decoded body, or [None] when the body is not JSON,
    and then [json_error] is what [r.json()] raises. *)
Record Response := mkResponse {
  status_code : Z;
  reason_phrase : string;
  resp_url : string;
  text : string;
  json : option Json;
  json_error : DecodeError
}.

Inductive Exception :=
| HTTPError (msg : string) (response : Response)
| ConnectionError (msg : string)
| JSONDecodeError (msg : string)
| AttributeError (msg : string)
| SystemExit (code : Z).

(** [str(e)] *)
Definition str_exception (e : Exception) : string :=
  match e with
  | HTTPError msg _ => msg
  | ConnectionError msg => msg
  | JSONDecodeError msg => msg
  | AttributeError msg => msg
  | SystemExit code => str_int code
  end.

(** What [requests.request] does with a call: it returns a response, or
    raises (no connection, time out after the 30 seconds [gh] allows). *)
Inductive Reply :=
| Answer (r : Response)
| Failure (e : Exception).

(** A line of the report:
    [(status, idx+1, titulo, url, reason, error)]. *)
Record ReportRow := mkReportRow {
  status : string;
  row : Z;
  task : string;
  issue : string;
  reason : string;
  error : string
}.

(** The calls of a run.  [Sleep] counts milliseconds. *)
Inductive Event :=
| Request (method url : string) (headers : Headers) (kwargs : Kwargs)
| Sleep (ms : Z)
| PrintLine (stream msg : string)
| CsvFile (path : string) (header : list string) (rows : list ReportRow).

Inductive Outcome (A : Type) :=
| Return (a : A)
| Raise (e : Exception)
| OutOfFuel.

Arguments Return {A} a.
Arguments Raise {A} e.
Arguments OutOfFuel {A}.

(** ** The spreadsheet

    A cell is read in two ways only: [bool(v)] and [str(v)].  A text cell
    is its string.  An integer cell is its value, with the rendering of
    the float it becomes when pandas turns its column to float64
    ([str(float(n))]: "7.0" for 7).  A float cell, and any other cell
    (date, boolean), is given by its truth value and its rendering. *)
Inductive Cell :=
| Str (s : string)
| Int (n : Z) (as_float : string)
| Float (truth : bool) (repr : string)
| Other (truth : bool) (repr : string).

(** A row as [iterrows] yields it.  In a data frame before [fillna], a
    column the row has no entry for holds NaN. *)
Definition Series := list (string * Cell).

Record DataFrame := mkDataFrame {
  columns : list string;
  rows : list Series
}.

Fixpoint assoc {A : Type} (k : string) (l : list (string * A)) : option A :=
  match l with
  | [] => None
  | (k', v) :: l' => if String.eqb k k' then Some v else assoc k l'
  end.

(** [row.get(c)]: [None] when the row has no column [c]. *)
Definition get (r : Series) (c : string) : option Cell := assoc c r.

(** [bool(v)], [str(v)], [v or ""] and [pd.isna(v)] for what [row.get]
    gives on a filled row. *)
Definition bool_cell (v : option Cell) : bool :=
  match v with
  | None => false
  | Some (Str s) => truthy s
  | Some (Int n _) => negb (n =? 0)
  | Some (Float t _) => t
  | Some (Other t _) => t
  end.

Definition str_cell (v : option Cell) : string :=
  match v with
  | None => "None"
  | Some (Str s) => s
  | Some (Int n _) => str_int n
  | Some (Float _ r) => r
  | Some (Other _ r) => r
  end.

Definition or_empty (v : option Cell) : option Cell :=
  if bool_cell v then v else Some (Str "").

Definition isna (v : option Cell) : bool :=
  match v with
  | None => true
  | Some _ => false
  end.

(** [c in df.columns] *)
Definition has_column (df : DataFrame) (c : string) : bool :=
  existsb (String.eqb c) (columns df).

(** [df[c] = v] *)
Definition set_column (c : string) (v : Cell) (df : DataFrame) : DataFrame :=
  {| columns := if has_column df c then columns df else columns df ++ [c];
     rows := map (fun r => filter (fun kv => negb (String.eqb (fst kv) c)) r
                           ++ [(c, v)]) (rows df) |}.

(** An integer, and a number or a missing cell (NaN). *)
Definition is_integer (v : option Cell) : bool :=
  match v with
  | Some (Int _ _) => true
  | _ => false
  end.

Definition is_number (v : option Cell) : bool :=
  match v with
  | Some (Int _ _) | Some (Float _ _) | None => true
  | _ => false
  end.

(** The columns [pd.concat] gives the type float64: those whose cells, over
    the rows of all the frames, are numbers or missing (as are the cells
    of a column in the rows of a frame that lacks it), unless every frame
    has the column and its cells are integers throughout. *)
Definition becomes_float (frames : list DataFrame) (c : string) : bool :=
  let cells := map (fun r => get r c) (concat (map rows frames)) in
  forallb is_number cells
  && (existsb (fun df => negb (has_column df c)) frames
      || negb (forallb is_integer cells)).

(** An integer in a float64 column is a float. *)
Definition upcast (v : Cell) : Cell :=
  match v with
  | Int n as_float => Float (negb (n =? 0)) as_float
  | _ => v
  end.

(** [pd.concat(frames, ignore_index=True)]: the columns of all frames, each
    once, and the rows one after the other, with the integers of the
    columns that become float64 turned into floats. *)
Definition concat_frames (frames : list DataFrame) : DataFrame :=
  {| columns :=
       fold_left (fun cs c => if existsb (String.eqb c) cs then cs else cs ++ [c])
         (concat (map columns frames)) [];
     rows :=
       map (fun r =>
              map (fun kv => if becomes_float frames (fst kv)
                             then (fst kv, upcast (snd kv))
                             else kv) r)
         (concat (map rows frames)) |}.

(** [df.fillna("")] *)
Definition fillna (df : DataFrame) : DataFrame :=
  {| columns := columns df;
     rows := map (fun r => map (fun c => (c, match get r c with
                                               | Some v => v
                                               | None => Str ""
                                               end)) (columns df)) (rows df) |}.

(** [df.iterrows()] on an index [0 .. n-1]. *)
Fixpoint iterrows_from (idx : Z) (l : list Series) : list (Z * Series) :=
  match l with
  | [] => []
  | r :: l' => (idx, r) :: iterrows_from (idx + 1) l'
  end.

Definition iterrows (df : DataFrame) : list (Z * Series) :=
  iterrows_from 0 (rows df).

Record Args := mkArgs {
  file : string;
  dry_run : bool
}.

(** ** The monad of the program *)

(** [requests.request(method, url, headers=headers, timeout=30, **kwargs)]:
    the tracker and the network between, as a function of the call and of
    the state of the world. *)
Class Network (World : Type) := {
  requests_request :
    string -> string -> Headers -> Kwargs -> World -> Reply * World
}.

Section Program.

Context {World : Type} {net : Network World}.

Definition M (A : Type) : Type := World -> Outcome A * World * list Event.

Definition ret {A : Type} (a : A) : M A := fun w => (Return a, w, []).

Definition raise {A : Type} (e : Exception) : M A := fun w => (Raise e, w, []).

Definition out_of_fuel {A : Type} : M A := fun w => (OutOfFuel, w, []).

Definition bind {A B : Type} (m : M A) (f : A -> M B) : M B :=
  fun w =>
    match m w with
    | (Return a, w1, t1) => let '(o, w2, t2) := f a w1 in (o, w2, t1 ++ t2)
    | (Raise e, w1, t1) => (Raise e, w1, t1)
    | (OutOfFuel, w1, t1) => (OutOfFuel, w1, t1)
    end.

(** [try: m  except ...: h(e)], for the exceptions [catches] selects. *)
Definition try_except {A : Type} (m : M A) (catches : Exception -> bool)
    (h : Exception -> M A) : M A :=
  fun w =>
    match m w with
    | (Raise e, w1, t1) =>
        if catches e
        then let '(o, w2, t2) := h e w1 in (o, w2, t1 ++ t2)
        else (Raise e, w1, t1)
    | r => r
    end.

Definition emit (ev : Event) : M unit := fun w => (Return tt, w, [ev]).

Local Notation "x <- m ;; k" := (bind m (fun x => k))
  (at level 61, m at next level, right associativity).
Local Notation "m ;; k" := (bind m (fun _ => k))
  (at level 61, right associativity).

Fixpoint for_each {A : Type} (l : list A) (body : A -> M unit) : M unit :=
  match l with
  | [] => ret tt
  | x :: l' => body x ;; for_each l' body
  end.

Definition request (method url : string) (headers : Headers)
    (kwargs : Kwargs) : M Response :=
  fun w =>
    match requests_request method url headers kwargs w with
    | (Answer r, w1) => (Return r, w1, [Request method url headers kwargs])
    | (Failure e, w1) => (Raise e, w1, [Request method url headers kwargs])
    end.

(** [time.sleep(seconds)], in milliseconds. *)
Definition sleep (ms : Z) : M unit := emit (Sleep ms).

(** [print(msg, file=stream)] *)
Definition print (stream msg : string) : M unit := emit (PrintLine stream msg).

(** The message [Response.raise_for_status] gives its [HTTPError]. *)
Definition http_error_msg (r : Response) : string :=
  str_int (status_code r)
  +++ (if status_code r <? 500 then " Client Error: " else " Server Error: ")
  +++ reason_phrase r +++ " for url: " +++ resp_url r.

(** [r.raise_for_status()]: an [HTTPError] for a status from 400 to 599. *)
Definition raise_for_status (r : Response) : M unit :=
  if (400 <=? status_code r) && (status_code r <? 600)
  then raise (HTTPError (http_error_msg r) r)
  else ret tt.

(** [r.json()] *)
Definition json_of (r : Response) : M Json :=
  match json r with
  | Some j => ret j
  | None => raise (JSONDecodeError (str_decode_error (json_error r)))
  end.

(** ** The client *)

Definition GH_API : string := "https://api.github.com".

(** The test of line 22:
    [r.status_code == 403 and "rate limit" in r.text.lower()]. *)
Definition rate_limited (r : Response) : bool :=
  (status_code r =? 403) && contains "rate limit" (lower (text r)).

Definition gh (headers : Headers) (method path : string) (kwargs : Kwargs)
    : M Response :=
  let url := GH_API +++ path in
  r <- request method url headers kwargs ;;
  r <- (if rate_limited r
        then sleep 5000 ;; request method url headers kwargs
        else ret r) ;;
  raise_for_status r ;;
  ret r.

Definition is_HTTPError (e : Exception) : bool :=
  match e with
  | HTTPError _ _ => true
  | _ => false
  end.

(** [ensure_label(headers, repo, name, color="5865F2", desc=None)] *)
Definition ensure_label (headers : Headers) (repo name color : string)
    (desc : option string) : M unit :=
  try_except
    (gh headers "GET" ("/repos/" +++ repo +++ "/labels/" +++ name) [] ;;
     ret tt)
    is_HTTPError
    (fun e =>
       match e with
       | HTTPError _ response =>
           if status_code response =? 404
           then
             let payload := [("name", VStr name); ("color", VStr color)] in
             let payload :=
               match desc with
               | Some d => if truthy d
                           then payload ++ [("description", VStr d)]
                           else payload
               | None => payload
               end in
             gh headers "POST" ("/repos/" +++ repo +++ "/labels")
               [("json", payload)] ;;
             ret tt
           else raise e
       | _ => raise e
       end).

(** The test of lines 58 to 60 on one entry: an issue, not a pull request,
    that has the label. *)
Definition is_seed_issue (label : string) (it : Issue) : bool :=
  negb (pull_request it) && existsb (String.eqb label) (labels it).

(** The [while True] of [find_issue_by_seed], from page [page] on.

    [r.json()] of the listing is an array of entries.  For an object,
    Python goes through its keys: none when it is empty (falsy), and the
    first key that does not contain ["pull_request"] has no [get]. *)
Fixpoint find_issue_loop (fuel : nat) (headers : Headers) (repo label : string)
    (per_page page : Z) : M (option Issue) :=
  match fuel with
  | O => out_of_fuel
  | S fuel' =>
      r <- gh headers "GET" ("/repos/" +++ repo +++ "/issues")
             [("params", [("state", VStr "all"); ("labels", VStr label);
                          ("per_page", VInt per_page); ("page", VInt page)])] ;;
      items <- json_of r ;;
      match items with
      | JArray [] => ret None
      | JArray items =>
          match List.find (is_seed_issue label) items with
          | Some it => ret (Some it)
          | None =>
              if Z.of_nat (List.length items) <? per_page
              then ret None
              else find_issue_loop fuel' headers repo label per_page (page + 1)
          end
      | JObject [] => ret None
      | JObject fields =>
          if forallb (fun kv => contains "pull_request" (fst kv)) fields
          then
            if Z.of_nat (List.length fields) <? per_page
            then ret None
            else find_issue_loop fuel' headers repo label per_page (page + 1)
          else raise (AttributeError "'str' object has no attribute 'get'")
      end
  end.

Definition find_issue_by_seed (fuel : nat) (headers : Headers)
    (repo seed_uid : string) : M (option Issue) :=
  let label := "seed:" +++ seed_uid in
  let page := 1 in
  let per_page := 50 in
  find_issue_loop fuel headers repo label per_page page.

(** [add(h, v)] of [build_body], on the list of parts so far. *)
Definition add (parts : list string) (h : string) (v : option Cell)
    : list string :=
  let v := if isna v then "" else str_cell v in
  if truthy (strip v) then parts ++ ["**" +++ h +++ ":** " +++ v] else parts.

(** [row.get(c, "")] *)
Definition get_default (r : Series) (c : string) : option Cell :=
  match get r c with
  | Some v => Some v
  | None => Some (Str "")
  end.

Definition build_body (r : Series) : string :=
  let parts := [] in
  let parts := add parts "Semana" (get r "Semana") in
  let parts := add parts "SQUAD" (get r "SQUAD") in
  let parts := add parts "Papel" (get r "Papel") in
  let parts := add parts "Id Aluno" (get r "Id Aluno") in
  let parts := add parts "IA" (get r "IA") in
  let parts := add parts "Tarefa" (get r "Tarefa") in
  let parts := add parts "Descrição" (get r "Descrição") in
  let parts := add parts "Entregáveis" (get r "Entregáveis") in
  let parts := add parts "Critérios de Aceite" (get r "Critérios de Aceite") in
  let parts := add parts "Arquivos Sugeridos" (get r "Arquivos Sugeridos") in
  let parts :=
    add parts "Comando de Verificação" (get r "Comando de Verificação") in
  let parts := add parts "Branch Sugerida" (get r "Branch Sugerida") in
  let parts := add parts "Revisor" (get r "Revisor") in
  let parts := add parts "Observações" (get r "Observações") in
  let seed_uid := strip (str_cell (get_default r "Issue UID")) in
  let parts := parts ++ [nl +++ "<!-- seed_id:" +++ seed_uid +++ " -->"] in
  String.concat nl parts.

(** ** The batch *)

(** The dynamic labels of a row (lines 142 to 155), with their colours. *)
Definition dyn (r : Series) (seed_uid : string) : list (string * string) :=
  let semana := strip (str_cell (get r "Semana")) in
  let squad := strip (str_cell (get r "SQUAD")) in
  let papel := strip (str_cell (get r "Papel")) in
  let ia := strip (str_cell (get r "IA")) in
  let aluno := strip (str_cell (get r "Id Aluno")) in
  [ ("Semana:" +++ semana, "7289DA");
    ("SQUAD:" +++ squad, "99AAB5");
    ("Papel:" +++ papel, "FEE75C");
    ("IA:" +++ ia, "FAA61A");
    ("IdAluno:" +++ aluno, "57F287");
    ("seed:" +++ seed_uid, "99AAB5") ].

(** The test of line 157: the names the loop over [dyn] does not ensure. *)
Definition not_ensured (name : string) : bool :=
  endswith name ":" || endswith name ":nan" || endswith name ":NaN".

(** Lines 156 to 159. *)
Definition ensure_dyn (headers : Headers) (repo : string)
    (dyn : list (string * string)) : M unit :=
  for_each dyn (fun nc =>
    let '(name, color) := nc in
    if not_ensured name then ret tt
    else ensure_label headers repo name color None).

(** [except Exception]: everything but [SystemExit]. *)
Definition is_Exception (e : Exception) : bool :=
  match e with
  | SystemExit _ => false
  | _ => true
  end.

(** [r.json().get("html_url", "")] *)
Definition created_url (r : Response) : M string :=
  j <- json_of r ;;
  match j with
  | JObject fields =>
      ret (match assoc "html_url" fields with
           | Some u => u
           | None => ""
           end)
  | JArray _ => raise (AttributeError "'list' object has no attribute 'get'")
  end.

(** The payload of line 168. *)
Definition issue_payload (titulo body : string) (dyn : list (string * string))
    : Dict :=
  [ ("title", VStr titulo);
    ("body", VStr body);
    ("labels", VList (filter (fun n => negb (endswith n ":")) (map fst dyn))) ].

(** The body of the [for] loop of [main] (lines 134 to 179) for the row
    [(idx, r)]: the record it appends to [report_rows].  An entry that
    [find_issue_by_seed] returns has the key ["labels"], so it is truthy at
    line 163. *)
Definition main_row (fuel : nat) (headers : Headers) (repo : string)
    (args : Args) (idx : Z) (r : Series) : M ReportRow :=
  let seed_uid := strip (str_cell (or_empty (get r "Issue UID"))) in
  let titulo := strip (str_cell (or_empty (get r "Tarefa"))) in
  if negb (truthy seed_uid) || negb (truthy titulo)
  then ret (mkReportRow "skip" (idx + 1) titulo "" "missing uid/title" "")
  else
    let dyn := dyn r seed_uid in
    ensure_dyn headers repo dyn ;;
    existing <- find_issue_by_seed fuel headers repo seed_uid ;;
    match existing with
    | Some existing =>
        ret (mkReportRow "exists" (idx + 1) titulo (html_url existing)
               ("seed:" +++ seed_uid) "")
    | None =>
        let body := build_body r in
        let payload := issue_payload titulo body dyn in
        if dry_run args
        then ret (mkReportRow "dry-run" (idx + 1) titulo "" "" "")
        else
          try_except
            (r <- gh headers "POST" ("/repos/" +++ repo +++ "/issues")
                    [("json", payload)] ;;
             url <- created_url r ;;
             sleep 300 ;;
             ret (mkReportRow "created" (idx + 1) titulo url
                    ("seed:" +++ seed_uid) ""))
            is_Exception
            (fun e =>
               ret (mkReportRow "error" (idx + 1) titulo "" ""
                      (str_exception e)))
    end.

(** The [for] loop of line 133, with [report_rows] as it grows. *)
Fixpoint main_rows (fuel : nat) (headers : Headers) (repo : string)
    (args : Args) (l : list (Z * Series)) (report_rows : list ReportRow)
    : M (list ReportRow) :=
  match l with
  | [] => ret report_rows
  | (idx, r) :: l' =>
      rec <- main_row fuel headers repo args idx r ;;
      main_rows fuel headers repo args l' (report_rows ++ [rec])
  end.

(** [a or b] for two look-ups in [os.environ]. *)
Definition or_else (a b : option string) : option string :=
  match a with
  | Some s => if truthy s then a else b
  | None => b
  end.

(** [not v] for a look-up in [os.environ]. *)
Definition falsy (v : option string) : bool :=
  match v with
  | Some s => negb (truthy s)
  | None => true
  end.

(** The text of a look-up in [os.environ], as an f-string renders it. *)
Definition value (v : option string) : string :=
  match v with
  | Some s => s
  | None => "None"
  end.

(** Lines 105 to 112: the sheets that have columns, each with its
    [__sheet__] column. *)
Definition read_frames (xl : list (string * DataFrame)) : list DataFrame :=
  flat_map (fun sdf =>
    let '(s, df) := sdf in
    if (List.length (columns df) =? 0)%nat then []
    else [set_column "__sheet__" (Str s) df]) xl.

(** Lines 119 to 121. *)
Definition expected_columns : list string :=
  ["Semana"; "SQUAD"; "Papel"; "Tarefa"; "IA"; "Id Aluno"; "Issue UID";
   "Título do PR"].

Definition normalize_columns (df : DataFrame) : DataFrame :=
  fold_left (fun df c => if has_column df c then df
                         else set_column c (Str "") df)
    expected_columns df.

(** Lines 124 to 127. *)
Definition base_labels : list (string * string * string) :=
  [ ("Tipo:feature", "3BA55D", "Tarefas de implementação");
    ("Tipo:bug", "ED4245", "Correções") ].

(** Lines 128 and 129. *)
Definition ensure_base_labels (headers : Headers) (repo : string) : M unit :=
  for_each base_labels (fun ncd =>
    let '(name, color, desc) := ncd in
    ensure_label headers repo name color (Some desc)).

Definition report_header : list string :=
  ["status"; "row"; "task"; "issue"; "reason"; "error"].

(** [main()], given the parsed arguments, [os.environ] and the sheets of
    the workbook [pd.ExcelFile(args.file)] as [xl.parse] reads them. *)
Definition main (fuel : nat) (args : Args) (environ : list (string * string))
    (xl : list (string * DataFrame)) : M unit :=
  let token := or_else (assoc "GITHUB_TOKEN" environ) (assoc "GH_TOKEN" environ) in
  let repo := assoc "GITHUB_REPOSITORY" environ in
  if falsy token || falsy repo
  then
    print "stderr" "Faltam variáveis: GITHUB_TOKEN e/ou GITHUB_REPOSITORY" ;;
    raise (SystemExit 2)
  else
    let repo := value repo in
    let headers := [ ("Authorization", "Bearer " +++ value token);
                     ("Accept", "application/vnd.github+json") ] in
    let frames := read_frames xl in
    match frames with
    | [] =>
        print "stderr" "Excel sem conteúdo lido." ;;
        raise (SystemExit 3)
    | _ :: _ =>
        let df := concat_frames frames in
        let df := normalize_columns df in
        ensure_base_labels headers repo ;;
        report_rows <-
          main_rows fuel headers repo args (iterrows (fillna df)) [] ;;
        emit (CsvFile "seed-report.csv" report_header report_rows) ;;
        print "stdout"
          ("Seed finalizado. Linhas: "
           +++ str_int (Z.of_nat (List.length report_rows))
           +++ ". Relatório: seed-report.csv")
    end.

End Program.

Notation "x <- m ;; k" := (bind m (fun x => k))
  (at level 61, m at next level, right associativity).
Notation "m ;; k" := (bind m (fun _ => k))
  (at level 61, right associativity).

(** ** Two trackers to run the program against *)

(** A tracker that answers from a script, whatever it is asked, and
    refuses the connection once the script is over. *)
Definition script_server (method url : string) (headers : Headers)
    (kwargs : Kwargs) (script : list Reply) : Reply * list Reply :=
  match script with
  | [] => (Failure (ConnectionError "Connection refused"), [])
  | reply :: script' => (reply, script')
  end.

#[export] Instance script_network : Network (list Reply) :=
  {| requests_request := script_server |}.

(** The [page] parameter of a listing request. *)
Definition page_param (kwargs : Kwargs) : Z :=
  match assoc "params" kwargs with
  | Some params =>
      match assoc "page" params with
      | Some (VInt p) => p
      | _ => 1
      end
  | None => 1
  end.

(** A tracker that is its issue listing, a sequence of pages: it answers
    the request for page [p] with [pages (p - 1)]. *)
Definition Listing : Type := nat -> list Issue.

Definition listing_server (method url : string) (headers : Headers)
    (kwargs : Kwargs) (pages : Listing) : Reply * Listing :=
  (Answer (mkResponse 200 "OK" url ""
             (Some (JArray (pages (Z.to_nat (page_param kwargs - 1)))))
             (mkDecodeError "Expecting value" 1 1 0)),
   pages).

#[export] Instance listing_network : Network Listing :=
  {| requests_request := listing_server |}.

(** The error of the decoder on a body that does not start as JSON. *)
Definition expecting_value : DecodeError :=
  mkDecodeError "Expecting value" 1 1 0.

(** Some answers of the tracker. *)
Definition ok : Reply :=
  Answer (mkResponse 200 "OK" "" "{}" (Some (JObject [])) expecting_value).

Definition not_found : Reply :=
  Answer (mkResponse 404 "Not Found" "" "Not Found"
            (Some (JObject [("message", "Not Found")])) expecting_value).

Definition created (url : string) : Reply :=
  Answer (mkResponse 201 "Created" "" "" (Some (JObject [("html_url", url)]))
            expecting_value).

Definition server_error : Reply :=
  Answer (mkResponse 500 "Internal Server Error" "" "" None expecting_value).

Definition rate_limit : Reply :=
  Answer (mkResponse 403 "Forbidden" "" "API rate limit exceeded" None
            expecting_value).

Definition listing (items : list Issue) : Reply :=
  Answer (mkResponse 200 "OK" "" "" (Some (JArray items)) expecting_value).

(** ** What is observed of a run *)

Definition outcome {A W : Type} (x : Outcome A * W * list Event) : Outcome A :=
  fst (fst x).

Definition events {A W : Type} (x : Outcome A * W * list Event) : list Event :=
  snd x.

(** The create-issue call: a POST to the issues of the repository. *)
Definition is_create_issue (repo : string) (ev : Event) : bool :=
  match ev with
  | Request method url _ _ =>
      String.eqb method "POST"
      && String.eqb url (GH_API +++ "/repos/" +++ repo +++ "/issues")
  | _ => false
  end.

(** A call that changes the tracker: any POST. *)
Definition is_mutating (ev : Event) : bool :=
  match ev with
  | Request method _ _ _ => String.eqb method "POST"
  | _ => false
  end.

Definition is_request (ev : Event) : bool :=
  match ev with
  | Request _ _ _ _ => true
  | _ => false
  end.

Definition is_report (ev : Event) : bool :=
  match ev with
  | CsvFile _ _ _ => true
  | _ => false
  end.

(** The existence check and the creation call of [ensure_label]. *)
Definition label_check (headers : Headers) (repo name : string) : Event :=
  Request "GET" (GH_API +++ "/repos/" +++ repo +++ "/labels/" +++ name)
    headers [].

Definition label_creation (headers : Headers) (repo : string) (payload : Dict)
    : Event :=
  Request "POST" (GH_API +++ "/repos/" +++ repo +++ "/labels") headers
    [("json", payload)].

(** The request of [find_issue_by_seed] for the page after [j] pages. *)
Definition listing_request (headers : Headers) (repo label : string) (j : nat)
    : Event :=
  Request "GET" (GH_API +++ "/repos/" +++ repo +++ "/issues") headers
    [("params", [("state", VStr "all"); ("labels", VStr label);
                 ("per_page", VInt 50); ("page", VInt (Z.of_nat j + 1))])].

(** The rows of the workbook: those of the sheets that have columns. *)
Definition input_rows (xl : list (string * DataFrame)) : list Series :=
  flat_map (fun sdf =>
    if (List.length (columns (snd sdf)) =? 0)%nat then [] else rows (snd sdf))
    xl.

(** The headers and the repository of a run, as [main] builds them. *)
Definition headers_of (environ : list (string * string)) : Headers :=
  [ ("Authorization",
     "Bearer " +++ value (or_else (assoc "GITHUB_TOKEN" environ)
                            (assoc "GH_TOKEN" environ)));
    ("Accept", "application/vnd.github+json") ].

Definition repo_of (environ : list (string * string)) : string :=
  value (assoc "GITHUB_REPOSITORY" environ).

(** Startup validation (lines 96 to 115) lets the run go on. *)
Definition startup_ok (environ : list (string * string))
    (xl : list (string * DataFrame)) : bool :=
  negb (falsy (or_else (assoc "GITHUB_TOKEN" environ) (assoc "GH_TOKEN" environ))
        || falsy (assoc "GITHUB_REPOSITORY" environ))
  && negb (match read_frames xl with [] => true | _ :: _ => false end).

(** The seed id and the title of a row (lines 134 and 135). *)
Definition seed_uid_of (r : Series) : string :=
  strip (str_cell (or_empty (get r "Issue UID"))).

Definition titulo_of (r : Series) : string :=
  strip (str_cell (or_empty (get r "Tarefa"))).

(** The statuses [raise_for_status] raises for. *)
Definition is_error_status (r : Response) : bool :=
  (400 <=? status_code r) && (status_code r <? 600).

(** No call of a trace creates an issue. *)
Definition creates_no_issue (repo : string) (t : list Event) : Prop :=
  Forall (fun ev => is_create_issue repo ev = false) t.

(** ** Sample inputs *)

Definition sample_environ : list (string * string) :=
  [("GITHUB_TOKEN", "t0"); ("GITHUB_REPOSITORY", "squad/backlog")].

Definition sample_headers : Headers := headers_of sample_environ.

Definition sample_repo : string := repo_of sample_environ.

(** A row of the loop, with the expected columns filled in. *)
Definition sample_row (uid tarefa semana : string) : Series :=
  [("Issue UID", Str uid); ("Tarefa", Str tarefa); ("Semana", Str semana);
   ("SQUAD", Str ""); ("Papel", Str ""); ("IA", Str ""); ("Id Aluno", Str "")].

(** A workbook of one sheet with two tasks of week 1. *)
Definition sample_xl : list (string * DataFrame) :=
  [("Backlog",
    mkDataFrame ["Issue UID"; "Tarefa"; "Semana"]
      [ [("Issue UID", Str "W1-01"); ("Tarefa", Str "Setup repo");
         ("Semana", Int 1 "1.0")];
        [("Issue UID", Str "W1-02"); ("Tarefa", Str "Write docs");
         ("Semana", Int 1 "1.0")] ])].

(** A workbook whose only row has no seed id. *)
Definition blank_xl : list (string * DataFrame) :=
  [("Backlog",
    mkDataFrame ["Issue UID"; "Tarefa"]
      [ [("Tarefa", Str "Setup repo")] ])].

(** A workbook without the column of the seed ids. *)
Definition untracked_xl : list (string * DataFrame) :=
  [("Backlog",
    mkDataFrame ["Tarefa"; "Semana"]
      [ [("Tarefa", Str "Setup repo"); ("Semana", Int 1 "1.0")] ])].

(** An answer to a creation whose body is not JSON. *)
Definition created_unreadable : Reply :=
  Answer (mkResponse 201 "Created" "" "<html>" None expecting_value).

Definition seed_issue (seed_uid url : string) : Issue :=
  mkIssue false ["Tipo:feature"; "seed:" +++ seed_uid] url.

Definition seed_pull_request (seed_uid url : string) : Issue :=
  mkIssue true ["seed:" +++ seed_uid] url.

(** A listing of two pages: fifty pull requests that carry the seed label,
    then an issue without it and two issues with it. *)
Definition sample_listing : Listing :=
  fun p =>
    match p with
    | O => repeat (seed_pull_request "W1-01" "https://tracker/pull/7") 50
    | S O => [ mkIssue false ["Tipo:bug"] "https://tracker/issues/8";
               seed_issue "W1-01" "https://tracker/issues/9";
               seed_issue "W1-01" "https://tracker/issues/10" ]
    | _ => []
    end.

Definition real_run : Args := mkArgs "backlog/ISSUE.xlsx" false.

Definition simulated_run : Args := mkArgs "backlog/ISSUE.xlsx" true.

(** The create-issue call of a row. *)
Definition issue_creation (headers : Headers) (repo : string) (payload : Dict)
    : Event :=
  Request "POST" (GH_API +++ "/repos/" +++ repo +++ "/issues") headers
    [("json", payload)].

(** ** The calls of the tracker's API and the parts of an issue *)

(** The request for page [page] of the issues that carry [label]. *)
Definition issue_listing (headers : Headers) (repo label : string) (page : Z)
    : Event :=
  Request "GET" (GH_API +++ "/repos/" +++ repo +++ "/issues") headers
    [("params", [("state", VStr "all"); ("labels", VStr label);
                 ("per_page", VInt 50); ("page", VInt page)])].

(** The four calls of the program, with the headers and on the repository
    of the run. *)
Inductive api_call (headers : Headers) (repo : string) : Event -> Prop :=
| api_label_check (name : string) :
    api_call headers repo (label_check headers repo name)
| api_label_creation (payload : Dict) :
    api_call headers repo (label_creation headers repo payload)
| api_issue_listing (label : string) (page : Z) :
    api_call headers repo (issue_listing headers repo label page)
| api_issue_creation (payload : Dict) :
    api_call headers repo (issue_creation headers repo payload).

(** The calls of a row: the two pauses and the calls of the API. *)
Definition row_call (headers : Headers) (repo : string) (ev : Event) : Prop :=
  ev = Sleep 5000 \/ ev = Sleep 300 \/ api_call headers repo ev.

(** The payload [ensure_label] creates a label with. *)
Definition label_payload (name color : string) (desc : option string) : Dict :=
  [("name", VStr name); ("color", VStr color)]
  ++ match desc with
     | Some d => if truthy d then [("description", VStr d)] else []
     | None => []
     end.

(** The labels of an issue payload. *)
Definition payload_labels (payload : Dict) : list string :=
  match assoc "labels" payload with
  | Some (VList l) => l
  | _ => []
  end.

(** The headings of [build_body], in the order of lines 72 to 85; each is
    also the column its value is read from. *)
Definition body_fields : list string :=
  ["Semana"; "SQUAD"; "Papel"; "Id Aluno"; "IA"; "Tarefa"; "Descrição";
   "Entregáveis"; "Critérios de Aceite"; "Arquivos Sugeridos";
   "Comando de Verificação"; "Branch Sugerida"; "Revisor"; "Observações"].

(** The line of a field in the body: none when its value is blank. *)
Definition body_line (r : Series) (h : string) : list string :=
  let v := if isna (get r h) then "" else str_cell (get r h) in
  if truthy (strip v) then ["**" +++ h +++ ":** " +++ v] else [].

(** The hidden marker a body ends with (line 87). *)
Definition seed_marker (seed_uid : string) : string :=
  nl +++ "<!-- seed_id:" +++ seed_uid +++ " -->".

(** The rows the loop of [main] goes through. *)
Definition loaded_rows_of (xl : list (string * DataFrame)) : list Series :=
  rows (fillna (normalize_columns (concat_frames (read_frames xl)))).

(** A column that has the empty string in every row. *)
Definition blank_column (c : string) (df : DataFrame) : Prop :=
  has_column df c = true
  /\ forall row, In row (rows df) -> get row c = Some (Str "").

(** The step of the loop of lines 119 to 121. *)
Definition normalize_step (df : DataFrame) (c : string) : DataFrame :=
  if has_column df c then df else set_column c (Str "") df.

(** The number of create-issue calls of a trace. *)
Definition creations (repo : string) (t : list Event) : nat :=
  List.length (filter (is_create_issue repo) t).

(** A workbook of two sheets: the first has a task numbered 7, the second
    has no column of tasks. *)
Definition mixed_xl : list (string * DataFrame) :=
  [("Week 1",
    mkDataFrame ["Issue UID"; "Tarefa"]
      [ [("Issue UID", Str "W1-01"); ("Tarefa", Int 7 "7.0")] ]);
   ("Later",
    mkDataFrame ["Issue UID"]
      [ [("Issue UID", Str "W2-01")] ])].

(** A workbook whose only row has a seed id that ends with a colon. *)
Definition colon_xl : list (string * DataFrame) :=
  [("Backlog",
    mkDataFrame ["Issue UID"; "Tarefa"; "Semana"]
      [ [("Issue UID", Str "W1:"); ("Tarefa", Str "Setup repo");
         ("Semana", Int 1 "1.0")] ])].

(** A workbook with the first row of the sample alone. *)
Definition single_xl : list (string * DataFrame) :=
  [("Backlog",
    mkDataFrame ["Issue UID"; "Tarefa"; "Semana"]
      [ [("Issue UID", Str "W1-01"); ("Tarefa", Str "Setup repo");
         ("Semana", Int 1 "1.0")] ])].

(** ** A tracker that keeps what it is sent

    The labels and the issues of the repository [sample_repo].  A label
    is there once it was created, by itself or with an issue that carries
    it; an issue is created with the labels of its payload; the listing
    for a label gives the issues that carry it, fifty a page. *)
Record Tracker := mkTracker {
  tracker_labels : list string;
  tracker_issues : list Issue
}.

Definition wanted_label (kwargs : Kwargs) : string :=
  match assoc "params" kwargs with
  | Some params =>
      match assoc "labels" params with
      | Some (VStr l) => l
      | _ => ""
      end
  | None => ""
  end.

Definition sent_name (kwargs : Kwargs) : string :=
  match assoc "json" kwargs with
  | Some payload =>
      match assoc "name" payload with
      | Some (VStr n) => n
      | _ => ""
      end
  | None => ""
  end.

Definition sent_labels (kwargs : Kwargs) : list string :=
  match assoc "json" kwargs with
  | Some payload => payload_labels payload
  | None => []
  end.

Definition add_label (known : list string) (name : string) : list string :=
  if existsb (String.eqb name) known then known else known ++ [name].

Definition tracker_server (method url : string) (headers : Headers)
    (kwargs : Kwargs) (tr : Tracker) : Reply * Tracker :=
  let base := GH_API +++ "/repos/" +++ sample_repo in
  if String.eqb url (base +++ "/issues")
  then
    if String.eqb method "POST"
    then
      let link :=
        "https://tracker/issues/"
        +++ str_int (Z.of_nat (S (List.length (tracker_issues tr)))) in
      (created link,
       mkTracker (fold_left add_label (sent_labels kwargs) (tracker_labels tr))
         (tracker_issues tr ++ [mkIssue false (sent_labels kwargs) link]))
    else
      let found :=
        filter (fun it => existsb (String.eqb (wanted_label kwargs)) (labels it))
          (tracker_issues tr) in
      (listing (firstn 50
                  (skipn (50 * Z.to_nat (page_param kwargs - 1)) found)),
       tr)
  else if String.eqb url (base +++ "/labels")
  then
    (created "",
     mkTracker (add_label (tracker_labels tr) (sent_name kwargs))
       (tracker_issues tr))
  else if startswith url (base +++ "/labels/")
  then
    if existsb (String.eqb (drop (String.length (base +++ "/labels/")) url))
         (tracker_labels tr)
    then (ok, tr)
    else (not_found, tr)
  else (not_found, tr).

#[export] Instance tracker_network : Network Tracker :=
  {| requests_request := tracker_server |}.

Definition empty_tracker : Tracker := mkTracker [] [].

(** The world a run ends in, and the records of the report it wrote. *)
Definition world {A W : Type} (x : Outcome A * W * list Event) : W :=
  snd (fst x).

Definition written_report (t : list Event) : list ReportRow :=
  flat_map (fun ev => match ev with
                      | CsvFile _ _ report => report
                      | _ => []
                      end) t.

(** ** Properties *)

Lemma append_cancel_l (p a b : string) : p +++ a = p +++ b -> a = b.
Proof.
  induction p as [|c p IH]; simpl; intros H.
  - exact H.
  - injection H as H. auto.
Qed.

Lemma labels_url_not_issues (repo : string) :
  String.eqb (GH_API +++ "/repos/" +++ repo +++ "/labels")
    (GH_API +++ "/repos/" +++ repo +++ "/issues") = false.
Proof.
  apply String.eqb_neq. intros H.
  apply append_cancel_l in H. apply append_cancel_l in H.
  apply append_cancel_l in H. discriminate H.
Qed.

Section Properties.

Context {World : Type} {net : Network World}.

(** *** The client *)

(** What [gh] does, by the answers to its first call and to its second. *)
Lemma gh_run (headers : Headers) (method path : string) (kwargs : Kwargs)
    (w : World) :
  let call := Request method (GH_API +++ path) headers kwargs in
  gh headers method path kwargs w =
  match requests_request method (GH_API +++ path) headers kwargs w with
  | (Failure e, w1) => (Raise e, w1, [call])
  | (Answer r1, w1) =>
      if rate_limited r1
      then
        match requests_request method (GH_API +++ path) headers kwargs w1 with
        | (Failure e, w2) => (Raise e, w2, [call; Sleep 5000; call])
        | (Answer r2, w2) =>
            if (400 <=? status_code r2) && (status_code r2 <? 600)
            then (Raise (HTTPError (http_error_msg r2) r2), w2,
                  [call; Sleep 5000; call])
            else (Return r2, w2, [call; Sleep 5000; call])
        end
      else
        if (400 <=? status_code r1) && (status_code r1 <? 600)
        then (Raise (HTTPError (http_error_msg r1) r1), w1, [call])
        else (Return r1, w1, [call])
  end.
Proof.
  intros call. unfold gh, bind, request, raise_for_status.
  destruct (requests_request method (GH_API +++ path) headers kwargs w)
    as [[r1|e1] w1]; [|reflexivity].
  destruct (rate_limited r1).
  - unfold sleep, emit. simpl.
    destruct (requests_request method _ headers kwargs w1) as [[r2|e2] w2];
      [|reflexivity].
    destruct ((400 <=? status_code r2) && (status_code r2 <? 600));
      reflexivity.
  - unfold ret. simpl.
    destruct ((400 <=? status_code r1) && (status_code r1 <? 600));
      reflexivity.
Qed.

(** *** Which calls a run can make

    A property [P] of calls that holds of every pause, of every GET and of
    the creation of a label holds of every call of the label and look-up
    phases; with the creation of an issue added, of every call of a row. *)

Section Calls.

Variable repo : string.
Variable P : Event -> Prop.
Hypothesis P_sleep : forall ms, P (Sleep ms).
Hypothesis P_get : forall url headers kwargs, P (Request "GET" url headers kwargs).
Hypothesis P_label : forall headers kwargs,
  P (Request "POST" (GH_API +++ "/repos/" +++ repo +++ "/labels") headers kwargs).

Lemma bind_events {A B : Type} (m : M A) (f : A -> M B) (w : World) :
  Forall P (events (m w)) ->
  (forall a w1, Forall P (events (f a w1))) ->
  Forall P (events (bind m f w)).
Proof.
  unfold bind, events. intros Hm Hf.
  destruct (m w) as [[[a|e|] w1] t1]; simpl in *; try assumption.
  specialize (Hf a w1). destruct (f a w1) as [[o w2] t2]. simpl in *.
  apply Forall_app. split; assumption.
Qed.

Lemma try_except_events {A : Type} (m : M A) (catches : Exception -> bool)
    (h : Exception -> M A) (w : World) :
  Forall P (events (m w)) ->
  (forall e w1, Forall P (events (h e w1))) ->
  Forall P (events (try_except m catches h w)).
Proof.
  unfold try_except, events. intros Hm Hh.
  destruct (m w) as [[[a|e|] w1] t1]; simpl in *; try assumption.
  destruct (catches e); simpl; try assumption.
  specialize (Hh e w1). destruct (h e w1) as [[o w2] t2]. simpl in *.
  apply Forall_app. split; assumption.
Qed.

Lemma ret_events {A : Type} (a : A) (w : World) : Forall P (events (ret a w)).
Proof. constructor. Qed.

Lemma raise_events {A : Type} (e : Exception) (w : World) :
  Forall P (events (raise (A:=A) e w)).
Proof. constructor. Qed.

Lemma gh_events (headers : Headers) (method path : string) (kwargs : Kwargs)
    (w : World) :
  P (Request method (GH_API +++ path) headers kwargs) ->
  Forall P (events (gh headers method path kwargs w)).
Proof.
  intros Hcall. rewrite gh_run.
  destruct (requests_request method _ headers kwargs w) as [[r1|e1] w1].
  - destruct (rate_limited r1).
    + destruct (requests_request method _ headers kwargs w1) as [[r2|e2] w2].
      * destruct ((400 <=? status_code r2) && (status_code r2 <? 600));
          unfold events; simpl; auto.
      * unfold events; simpl; auto.
    + destruct ((400 <=? status_code r1) && (status_code r1 <? 600));
        unfold events; simpl; auto.
  - unfold events; simpl; auto.
Qed.

Lemma ensure_label_events (headers : Headers) (name color : string)
    (desc : option string) (w : World) :
  Forall P (events (ensure_label headers repo name color desc w)).
Proof.
  unfold ensure_label. apply try_except_events.
  - apply bind_events; [apply gh_events, P_get | intros; apply ret_events].
  - intros e w1. destruct e; try apply raise_events.
    destruct (status_code response =? 404); [|apply raise_events].
    apply bind_events; [apply gh_events, P_label | intros; apply ret_events].
Qed.

Lemma for_each_events {A : Type} (l : list A) (body : A -> M unit) (w : World) :
  (forall a w1, Forall P (events (body a w1))) ->
  Forall P (events (for_each l body w)).
Proof.
  intros Hbody. revert w.
  induction l as [|x l IH]; intros w; cbn [for_each].
  - apply ret_events.
  - apply bind_events; [apply Hbody | intros _ w1; apply IH].
Qed.

Lemma ensure_dyn_events (headers : Headers) (l : list (string * string))
    (w : World) :
  Forall P (events (ensure_dyn headers repo l w)).
Proof.
  unfold ensure_dyn. apply for_each_events.
  intros [name color] w1.
  destruct (not_ensured name); [apply ret_events | apply ensure_label_events].
Qed.

Lemma ensure_base_labels_events (headers : Headers) (w : World) :
  Forall P (events (ensure_base_labels headers repo w)).
Proof.
  unfold ensure_base_labels. apply for_each_events.
  intros [[name color] desc] w1. apply ensure_label_events.
Qed.

Lemma json_of_events (r : Response) (w : World) :
  Forall P (events (json_of r w)).
Proof. unfold json_of. destruct (json r); constructor. Qed.

Lemma find_issue_loop_events (fuel : nat) (headers : Headers)
    (label : string) (per_page page : Z) (w : World) :
  Forall P (events (find_issue_loop fuel headers repo label per_page page w)).
Proof.
  revert page w.
  induction fuel as [|fuel IH]; intros page w; cbn [find_issue_loop].
  - constructor.
  - apply bind_events; [apply gh_events, P_get|]. intros r w1.
    apply bind_events; [apply json_of_events|]. intros j w2.
    destruct j as [[|it items]|[|kv fields]]; try apply ret_events.
    + destruct (List.find (is_seed_issue label) (it :: items));
        [apply ret_events|].
      destruct (Z.of_nat (List.length (it :: items)) <? per_page);
        [apply ret_events | apply IH].
    + destruct (forallb _ (kv :: fields)); [|apply raise_events].
      destruct (Z.of_nat (List.length (kv :: fields)) <? per_page);
        [apply ret_events | apply IH].
Qed.

Lemma find_issue_by_seed_events (fuel : nat) (headers : Headers)
    (seed_uid : string) (w : World) :
  Forall P (events (find_issue_by_seed fuel headers repo seed_uid w)).
Proof. apply find_issue_loop_events. Qed.

Lemma created_url_events (r : Response) (w : World) :
  Forall P (events (created_url r w)).
Proof.
  unfold created_url. apply bind_events; [apply json_of_events|].
  intros [items|fields] w1; constructor.
Qed.

(** A row of a dry run makes calls of the two phases only. *)
Lemma main_row_dry_events (fuel : nat) (headers : Headers) (args : Args)
    (idx : Z) (r : Series) (w : World) :
  dry_run args = true ->
  Forall P (events (main_row fuel headers repo args idx r w)).
Proof.
  intros Hdry. unfold main_row.
  destruct (negb _ || negb _); [apply ret_events|].
  apply bind_events; [apply ensure_dyn_events|]. intros _ w1.
  apply bind_events; [apply find_issue_by_seed_events|]. intros [it|] w2.
  - apply ret_events.
  - rewrite Hdry. apply ret_events.
Qed.

Hypothesis P_issue : forall headers kwargs,
  P (Request "POST" (GH_API +++ "/repos/" +++ repo +++ "/issues") headers kwargs).

Lemma main_row_events (fuel : nat) (headers : Headers) (args : Args)
    (idx : Z) (r : Series) (w : World) :
  Forall P (events (main_row fuel headers repo args idx r w)).
Proof.
  unfold main_row.
  destruct (negb _ || negb _); [apply ret_events|].
  apply bind_events; [apply ensure_dyn_events|]. intros _ w1.
  apply bind_events; [apply find_issue_by_seed_events|]. intros [it|] w2.
  - apply ret_events.
  - destruct (dry_run args); [apply ret_events|].
    apply try_except_events; [|intros; apply ret_events].
    apply bind_events; [apply gh_events, P_issue|]. intros r1 w3.
    apply bind_events; [apply created_url_events|]. intros url w4.
    apply bind_events; [unfold sleep, emit, events; simpl; auto|].
    intros; apply ret_events.
Qed.

Lemma main_rows_events (fuel : nat) (headers : Headers) (args : Args)
    (l : list (Z * Series)) (report_rows : list ReportRow) (w : World) :
  Forall P (events (main_rows fuel headers repo args l report_rows w)).
Proof.
  revert report_rows w.
  induction l as [|[idx r] l IH]; intros report_rows w; cbn [main_rows].
  - apply ret_events.
  - apply bind_events; [apply main_row_events | intros; apply IH].
Qed.

End Calls.

Lemma truthy_nonempty (s : string) : s <> "" -> truthy s = true.
Proof.
  intros H. unfold truthy. apply negb_true_iff, String.eqb_neq. exact H.
Qed.

Lemma row_is_valid (r : Series) :
  seed_uid_of r <> "" -> titulo_of r <> "" ->
  negb (truthy (seed_uid_of r)) || negb (truthy (titulo_of r)) = false.
Proof.
  intros Hs Ht. rewrite (truthy_nonempty _ Hs), (truthy_nonempty _ Ht).
  reflexivity.
Qed.

Lemma phases_create_no_issue (repo : string) :
  (forall ms, is_create_issue repo (Sleep ms) = false) /\
  (forall url headers kwargs,
     is_create_issue repo (Request "GET" url headers kwargs) = false) /\
  (forall headers kwargs,
     is_create_issue repo
       (Request "POST" (GH_API +++ "/repos/" +++ repo +++ "/labels")
          headers kwargs) = false).
Proof.
  repeat split; intros; try reflexivity.
  unfold is_create_issue. rewrite labels_url_not_issues. reflexivity.
Qed.

Lemma rate_limited_is_error (r : Response) :
  rate_limited r = true -> is_error_status r = true.
Proof.
  unfold rate_limited, is_error_status. intros H.
  apply andb_true_iff in H. destruct H as [H _].
  apply Z.eqb_eq in H. rewrite H. reflexivity.
Qed.

(** *** The rows *)

(** C4.  A row whose seed id or title is empty once trimmed gives the
    record [("skip", idx+1, titulo, "", "missing uid/title", "")], and the
    program makes no call at all for it: the trace of the row is empty and
    the world is as it was. *)
Theorem blank_row_is_skipped (fuel : nat) (headers : Headers) (repo : string)
    (args : Args) (idx : Z) (r : Series) (w : World) :
  seed_uid_of r = "" \/ titulo_of r = "" ->
  main_row fuel headers repo args idx r w =
  (Return (mkReportRow "skip" (idx + 1) (titulo_of r) "" "missing uid/title" ""),
   w, []).
Proof.
  intros H. unfold main_row.
  fold (seed_uid_of r) (titulo_of r).
  assert (Hskip : negb (truthy (seed_uid_of r)) || negb (truthy (titulo_of r))
                  = true).
  { destruct H as [H|H]; rewrite H; simpl.
    - reflexivity.
    - apply orb_true_r. }
  rewrite Hskip. reflexivity.
Qed.

(** X21.  For a row with a seed id and a title, once its labels are ensured
    and the look-up returns an issue [existing], the record of the row is
    [("exists", idx+1, titulo, existing["html_url"], "seed:<seed id>", "")],
    and the calls of the row are those of the two phases, none of which
    creates an issue: a seed id the tracker already has is not created
    again, with or without [--dry-run]. *)
Theorem existing_issue_is_not_recreated (fuel : nat) (headers : Headers)
    (repo : string) (args : Args) (idx : Z) (r : Series) (existing : Issue)
    (w w1 w2 : World) (t1 t2 : list Event) :
  seed_uid_of r <> "" ->
  titulo_of r <> "" ->
  ensure_dyn headers repo (dyn r (seed_uid_of r)) w = (Return tt, w1, t1) ->
  find_issue_by_seed fuel headers repo (seed_uid_of r) w1
    = (Return (Some existing), w2, t2) ->
  main_row fuel headers repo args idx r w =
    (Return (mkReportRow "exists" (idx + 1) (titulo_of r) (html_url existing)
               ("seed:" +++ seed_uid_of r) ""),
     w2, t1 ++ t2)
  /\ creates_no_issue repo (t1 ++ t2).
Proof.
  intros Hs Ht Hensure Hfind. split.
  - unfold main_row. fold (seed_uid_of r) (titulo_of r).
    rewrite (row_is_valid r Hs Ht).
    unfold bind. rewrite Hensure, Hfind. unfold ret.
    rewrite app_nil_r. reflexivity.
  - destruct (phases_create_no_issue repo) as (Psleep & Pget & Plabel).
    apply Forall_app. split.
    + change t1 with (events (Return tt, w1, t1)). rewrite <- Hensure.
      apply ensure_dyn_events; assumption.
    + change t2 with (events (Return (Some existing), w2, t2)).
      rewrite <- Hfind. apply find_issue_by_seed_events; assumption.
Qed.

(** C6, as the code has it.  With [--dry-run], no row makes the
    create-issue call, whatever the tracker answers.  A row with a seed id
    and a title whose labels are ensured and whose look-up finds nothing is
    reported [("dry-run", idx+1, titulo, "", "", "")].  The label and
    look-up phases run as without the flag, the creation of missing labels
    included: the calls of the row in a run without the flag are those of
    the dry run, followed by the ones that create the issue. *)
Theorem dry_run_creates_no_issue (fuel : nat) (headers : Headers)
    (repo : string) (args : Args) (idx : Z) (r : Series) (w : World) :
  dry_run args = true ->
  creates_no_issue repo (events (main_row fuel headers repo args idx r w))
  /\ (forall w1 t1 w2 t2,
        seed_uid_of r <> "" ->
        titulo_of r <> "" ->
        ensure_dyn headers repo (dyn r (seed_uid_of r)) w = (Return tt, w1, t1) ->
        find_issue_by_seed fuel headers repo (seed_uid_of r) w1
          = (Return None, w2, t2) ->
        main_row fuel headers repo args idx r w =
          (Return (mkReportRow "dry-run" (idx + 1) (titulo_of r) "" "" ""),
           w2, t1 ++ t2))
  /\ (exists rest,
        events (main_row fuel headers repo (mkArgs (file args) false) idx r w)
        = events (main_row fuel headers repo args idx r w) ++ rest).
Proof.
  intros Hdry. repeat split.
  - destruct (phases_create_no_issue repo) as (Psleep & Pget & Plabel).
    apply main_row_dry_events; assumption.
  - intros w1 t1 w2 t2 Hs Ht Hensure Hfind.
    unfold main_row. fold (seed_uid_of r) (titulo_of r).
    rewrite (row_is_valid r Hs Ht).
    unfold bind. rewrite Hensure, Hfind, Hdry. unfold ret.
    rewrite app_nil_r. reflexivity.
  - unfold main_row. fold (seed_uid_of r) (titulo_of r).
    destruct (negb (truthy (seed_uid_of r)) || negb (truthy (titulo_of r))).
    { exists []. reflexivity. }
    unfold bind.
    destruct (ensure_dyn headers repo (dyn r (seed_uid_of r)) w)
      as [[[[]|e|] w1] t1]; try (exists []; symmetry; apply app_nil_r).
    destruct (find_issue_by_seed fuel headers repo (seed_uid_of r) w1)
      as [[[[it|]|e|] w2] t2]; try (exists []; symmetry; apply app_nil_r).
    rewrite Hdry. cbn [dry_run].
    destruct (try_except _ _ _ w2) as [[o w3] t3].
    exists t3. unfold ret, events. cbn [snd].
    rewrite app_nil_r, app_assoc. reflexivity.
Qed.

(** C9.  What [gh] does with the answer to its call:
    - a rate-limit answer (403 with "rate limit" in its text, whatever the
      case) is followed by a pause of five seconds and one more call, and
      the answer to that call is final: a status from 400 to 599, a second
      rate limit among them, is raised as [HTTPError], any other is
      returned;
    - any other answer is final at once: a status from 400 to 599 is
      raised as [HTTPError] after that single call, any other is returned;
    - an exception of [requests.request] is raised as it is. *)
Theorem gh_retries_rate_limit_once (headers : Headers) (method path : string)
    (kwargs : Kwargs) (w : World) :
  let call := Request method (GH_API +++ path) headers kwargs in
  let first := requests_request method (GH_API +++ path) headers kwargs w in
  let second :=
    requests_request method (GH_API +++ path) headers kwargs (snd first) in
  let run := gh headers method path kwargs w in
  (forall r1, fst first = Answer r1 -> rate_limited r1 = true ->
     events run = [call; Sleep 5000; call]
     /\ (forall r2, fst second = Answer r2 ->
          (rate_limited r2 = true ->
           outcome run = Raise (HTTPError (http_error_msg r2) r2))
          /\ (is_error_status r2 = true ->
              outcome run = Raise (HTTPError (http_error_msg r2) r2))
          /\ (is_error_status r2 = false -> outcome run = Return r2))
     /\ (forall e, fst second = Failure e -> outcome run = Raise e))
  /\ (forall r1, fst first = Answer r1 -> rate_limited r1 = false ->
       events run = [call]
       /\ (is_error_status r1 = true ->
           outcome run = Raise (HTTPError (http_error_msg r1) r1))
       /\ (is_error_status r1 = false -> outcome run = Return r1))
  /\ (forall e, fst first = Failure e ->
       events run = [call] /\ outcome run = Raise e).
Proof.
  cbv zeta. rewrite gh_run. cbv zeta.
  destruct (requests_request method (GH_API +++ path) headers kwargs w)
    as [reply1 w1].
  cbn [fst snd]. split; [|split].
  - intros r1 -> Hrate. rewrite Hrate.
    destruct (requests_request method (GH_API +++ path) headers kwargs w1)
      as [reply2 w2].
    cbn [fst]. split; [|split].
    + destruct reply2 as [r2|e2]; [destruct (_ && _)|]; reflexivity.
    + intros r2 ->. fold (is_error_status r2). split; [|split].
      * intros H. rewrite (rate_limited_is_error r2 H). reflexivity.
      * intros ->. reflexivity.
      * intros ->. reflexivity.
    + intros e ->. reflexivity.
  - intros r1 -> Hrate. rewrite Hrate. fold (is_error_status r1).
    split; [|split].
    + destruct (is_error_status r1); reflexivity.
    + intros ->. reflexivity.
    + intros ->. reflexivity.
  - intros e ->. split; reflexivity.
Qed.

(** *** The run as a whole *)

Lemma bind_Return {A B : Type} (m : M A) (f : A -> M B) (w w' : World)
    (b : B) (t : list Event) :
  bind m f w = (Return b, w', t) ->
  exists a w1 t1 t2,
    m w = (Return a, w1, t1) /\ f a w1 = (Return b, w', t2) /\ t = t1 ++ t2.
Proof.
  unfold bind. destruct (m w) as [[[a|e|] w1] t1]; try discriminate.
  destruct (f a w1) as [[o w2] t2] eqn:Hf. intros [= -> -> <-].
  exists a, w1, t1, t2. auto.
Qed.

Lemma try_except_Return {A : Type} (m : M A) (catches : Exception -> bool)
    (h : Exception -> M A) (w w' : World) (a : A) (t : list Event) :
  try_except m catches h w = (Return a, w', t) ->
  m w = (Return a, w', t)
  \/ exists e w1 t1 t2,
       m w = (Raise e, w1, t1) /\ h e w1 = (Return a, w', t2) /\ t = t1 ++ t2.
Proof.
  unfold try_except. destruct (m w) as [[[a0|e|] w1] t1]; try discriminate.
  - intros H. left. exact H.
  - destruct (catches e); try discriminate.
    destruct (h e w1) as [[o w2] t2] eqn:Hh. intros [= -> -> <-].
    right. exists e, w1, t1, t2. auto.
Qed.

(** The record of the row [(idx, r)] carries the number [idx + 1]. *)
Lemma main_row_number (fuel : nat) (headers : Headers) (repo : string)
    (args : Args) (idx : Z) (r : Series) (w w' : World) (rec : ReportRow)
    (t : list Event) :
  main_row fuel headers repo args idx r w = (Return rec, w', t) ->
  row rec = idx + 1.
Proof.
  unfold main_row.
  destruct (negb _ || negb _).
  { intros [= <- _ _]. reflexivity. }
  intros H. apply bind_Return in H. destruct H as ([] & w1 & t1 & t2 & _ & H & _).
  apply bind_Return in H. destruct H as (existing & w2 & t3 & t4 & _ & H & _).
  destruct existing as [it|].
  { injection H as <- _ _. reflexivity. }
  destruct (dry_run args).
  { injection H as <- _ _. reflexivity. }
  apply try_except_Return in H.
  destruct H as [H|(e & w3 & t5 & t6 & _ & H & _)].
  - apply bind_Return in H. destruct H as (r1 & w3 & t5 & t6 & _ & H & _).
    apply bind_Return in H. destruct H as (url & w4 & t7 & t8 & _ & H & _).
    apply bind_Return in H. destruct H as ([] & w5 & t9 & t10 & _ & H & _).
    injection H as <- _ _. reflexivity.
  - injection H as <- _ _. reflexivity.
Qed.

(** The loop appends one record for each row it goes through, numbered as
    the row. *)
Lemma main_rows_report (fuel : nat) (headers : Headers) (repo : string)
    (args : Args) (l : list (Z * Series)) (report_rows report : list ReportRow)
    (w w' : World) (t : list Event) :
  main_rows fuel headers repo args l report_rows w = (Return report, w', t) ->
  exists recs,
    report = report_rows ++ recs /\ map row recs = map (fun ir => fst ir + 1) l.
Proof.
  revert report_rows w t.
  induction l as [|[idx r] l IH]; intros report_rows w t; cbn [main_rows].
  - intros [= <- _ _]. exists []. rewrite app_nil_r. auto.
  - intros H. apply bind_Return in H.
    destruct H as (rec & w1 & t1 & t2 & Hrow & Hrest & _).
    apply IH in Hrest. destruct Hrest as (recs & -> & Hnum).
    exists (rec :: recs). split.
    + rewrite <- app_assoc. reflexivity.
    + cbn [map fst]. rewrite (main_row_number _ _ _ _ _ _ _ _ _ _ Hrow), Hnum.
      reflexivity.
Qed.

Lemma iterrows_from_numbers (l : list Series) (idx : Z) :
  map fst (iterrows_from idx l)
  = map (fun k => idx + Z.of_nat k) (seq 0 (List.length l)).
Proof.
  revert idx. induction l as [|r l IH]; intros idx; cbn [iterrows_from].
  - reflexivity.
  - cbn [List.length seq map fst]. rewrite IH, <- seq_shift, map_map.
    f_equal; [lia|]. apply map_ext. intros k. lia.
Qed.

Lemma set_column_rows (c : string) (v : Cell) (df : DataFrame) :
  List.length (rows (set_column c v df)) = List.length (rows df).
Proof. unfold set_column. cbn [rows]. apply length_map. Qed.

Lemma normalize_columns_rows (df : DataFrame) :
  List.length (rows (normalize_columns df)) = List.length (rows df).
Proof.
  unfold normalize_columns. generalize expected_columns. intros cs.
  revert df. induction cs as [|c cs IH]; intros df; cbn [fold_left].
  - reflexivity.
  - rewrite IH. destruct (has_column df c); [reflexivity|].
    apply set_column_rows.
Qed.

Lemma read_frames_rows (xl : list (string * DataFrame)) :
  List.length (concat (map rows (read_frames xl)))
  = List.length (input_rows xl).
Proof.
  unfold read_frames, input_rows.
  induction xl as [|[s df] xl IH]; cbn [flat_map snd].
  - reflexivity.
  - rewrite map_app, concat_app, !length_app, IH. f_equal.
    destruct (List.length (columns df) =? 0)%nat; [reflexivity|].
    cbn [map concat]. rewrite app_nil_r. apply set_column_rows.
Qed.

(** The rows the loop goes through are as many as the rows of the
    workbook. *)
Lemma loaded_rows (xl : list (string * DataFrame)) :
  List.length
    (rows (fillna (normalize_columns (concat_frames (read_frames xl)))))
  = List.length (input_rows xl).
Proof.
  unfold fillna. cbn [rows]. rewrite length_map, normalize_columns_rows.
  unfold concat_frames. cbn [rows]. rewrite length_map.
  apply read_frames_rows.
Qed.

(** Past startup validation, [main] is the base labels, the rows, the
    report and the last line. *)
Lemma main_run (fuel : nat) (args : Args) (environ : list (string * string))
    (xl : list (string * DataFrame)) :
  startup_ok environ xl = true ->
  main fuel args environ xl =
  (ensure_base_labels (headers_of environ) (repo_of environ) ;;
   report_rows <-
     main_rows fuel (headers_of environ) (repo_of environ) args
       (iterrows (fillna (normalize_columns (concat_frames (read_frames xl)))))
       [] ;;
   emit (CsvFile "seed-report.csv" report_header report_rows) ;;
   print "stdout"
     ("Seed finalizado. Linhas: "
      +++ str_int (Z.of_nat (List.length report_rows))
      +++ ". Relatório: seed-report.csv")).
Proof.
  unfold startup_ok, main. intros H.
  apply andb_true_iff in H. destruct H as [Henv Hframes].
  apply negb_true_iff in Henv. rewrite Henv.
  destruct (read_frames xl); [discriminate|]. reflexivity.
Qed.

Lemma main_Return_startup (fuel : nat) (args : Args)
    (environ : list (string * string)) (xl : list (string * DataFrame))
    (w w' : World) (t : list Event) :
  main fuel args environ xl w = (Return tt, w', t) ->
  startup_ok environ xl = true.
Proof.
  unfold startup_ok, main.
  destruct (falsy _ || falsy _); [discriminate|].
  destruct (read_frames xl); [discriminate|]. reflexivity.
Qed.

(** Whatever the tracker answers, an entry the look-up returns is an
    issue with the label. *)
Lemma find_issue_loop_seed_issue (fuel : nat) (headers : Headers)
    (repo label : string) (per_page page : Z) (it : Issue) (w w' : World)
    (t : list Event) :
  find_issue_loop fuel headers repo label per_page page w
    = (Return (Some it), w', t) ->
  is_seed_issue label it = true.
Proof.
  revert page w t.
  induction fuel as [|fuel IH]; intros page w t; cbn [find_issue_loop].
  - discriminate.
  - intros H. apply bind_Return in H.
    destruct H as (r & w1 & t1 & t2 & _ & H & _).
    apply bind_Return in H. destruct H as (j & w2 & t3 & t4 & _ & H & _).
    destruct j as [[|x items]|[|kv fields]]; try discriminate.
    + destruct (List.find (is_seed_issue label) (x :: items)) as [y|] eqn:Hfind.
      * injection H as -> _ _. apply (find_some _ _ Hfind).
      * destruct (Z.of_nat (List.length (x :: items)) <? per_page);
          [discriminate | exact (IH _ _ _ H)].
    + destruct (forallb _ (kv :: fields)); [|discriminate].
      destruct (Z.of_nat (List.length (kv :: fields)) <? per_page);
        [discriminate | exact (IH _ _ _ H)].
Qed.

(** X15.  The report is not written before the batch is over: a run that
    does not return (it exits at startup, or an exception leaves it) has
    written no report, not even a part of one. *)
Lemma no_partial_report (fuel : nat) (args : Args)
    (environ : list (string * string)) (xl : list (string * DataFrame))
    (w : World) :
  outcome (main fuel args environ xl w) <> Return tt ->
  Forall (fun ev => is_report ev = false) (events (main fuel args environ xl w)).
Proof.
  remember (main fuel args environ xl w) as run eqn:Hrun.
  destruct (startup_ok environ xl) eqn:Hok.
  - rewrite (main_run fuel args environ xl Hok) in Hrun.
    unfold bind at 1 in Hrun.
    pose proof (ensure_base_labels_events (repo_of environ)
                  (fun ev => is_report ev = false)
                  ltac:(reflexivity) ltac:(reflexivity) ltac:(reflexivity)
                  (headers_of environ) w) as Hbase.
    destruct (ensure_base_labels (headers_of environ) (repo_of environ) w)
      as [[[[]|e|] w1] t1]; unfold events in Hbase; cbn [snd] in Hbase;
      try (subst run; intros _; exact Hbase).
    unfold bind at 1 in Hrun.
    pose proof (main_rows_events (repo_of environ)
                  (fun ev => is_report ev = false)
                  ltac:(reflexivity) ltac:(reflexivity) ltac:(reflexivity)
                  ltac:(reflexivity)
                  fuel (headers_of environ) args
                  (iterrows (fillna (normalize_columns
                                       (concat_frames (read_frames xl)))))
                  [] w1) as Hrows.
    destruct (main_rows fuel (headers_of environ) (repo_of environ) args _ [] w1)
      as [[[report|e|] w2] t2]; unfold events in Hrows; cbn [snd] in Hrows;
      subst run.
    + intros H. exfalso. apply H. reflexivity.
    + intros _. apply Forall_app. split; assumption.
    + intros _. apply Forall_app. split; assumption.
  - intros _. subst run. unfold startup_ok in Hok. unfold main.
    destruct (falsy _ || falsy _).
    + repeat constructor.
    + destruct (read_frames xl); [repeat constructor | discriminate].
Qed.

(** A row makes the create-issue call only when its record says
    [created] or [error]. *)
Lemma main_row_creation (fuel : nat) (headers : Headers) (repo : string)
    (args : Args) (idx : Z) (r : Series) (w w' : World) (rec : ReportRow)
    (t : list Event) :
  main_row fuel headers repo args idx r w = (Return rec, w', t) ->
  status rec = "created" \/ status rec = "error" \/ creates_no_issue repo t.
Proof.
  destruct (phases_create_no_issue repo) as (Psleep & Pget & Plabel).
  unfold main_row.
  destruct (negb _ || negb _).
  { intros [= <- _ <-]. right. right. constructor. }
  intros H. apply bind_Return in H.
  destruct H as ([] & w1 & t1 & t2 & Hensure & H & ->).
  apply bind_Return in H.
  destruct H as (existing & w2 & t3 & t4 & Hfind & H & ->).
  assert (Hphases : creates_no_issue repo (t1 ++ t3)).
  { apply Forall_app. split.
    - change t1 with (events (Return tt, w1, t1)). rewrite <- Hensure.
      apply ensure_dyn_events; assumption.
    - change t3 with (events (Return existing, w2, t3)). rewrite <- Hfind.
      apply find_issue_by_seed_events; assumption. }
  destruct existing as [it|].
  { injection H as <- _ <-. right. right. rewrite app_nil_r. exact Hphases. }
  destruct (dry_run args).
  { injection H as <- _ <-. right. right. rewrite app_nil_r. exact Hphases. }
  apply try_except_Return in H.
  destruct H as [H|(e & w3 & t5 & t6 & _ & H & _)].
  - apply bind_Return in H. destruct H as (r1 & w3 & t5 & t6 & _ & H & _).
    apply bind_Return in H. destruct H as (url & w4 & t7 & t8 & _ & H & _).
    apply bind_Return in H. destruct H as ([] & w5 & t9 & t10 & _ & H & _).
    injection H as <- _ _. left. reflexivity.
  - injection H as <- _ _. right. left. reflexivity.
Qed.

(** A batch whose records are all other than [created] and [error] has
    made no create-issue call. *)
Lemma main_rows_creation (fuel : nat) (headers : Headers) (repo : string)
    (args : Args) (l : list (Z * Series)) (report_rows report : list ReportRow)
    (w w' : World) (t : list Event) :
  main_rows fuel headers repo args l report_rows w = (Return report, w', t) ->
  exists recs,
    report = report_rows ++ recs
    /\ ((forall rec, In rec recs ->
           status rec <> "created" /\ status rec <> "error") ->
        creates_no_issue repo t).
Proof.
  revert report_rows w t.
  induction l as [|[idx r] l IH]; intros report_rows w t; cbn [main_rows].
  - intros [= <- _ <-]. exists []. rewrite app_nil_r. split; [reflexivity|].
    intros _. constructor.
  - intros H. apply bind_Return in H.
    destruct H as (rec & w1 & t1 & t2 & Hrow & Hrest & ->).
    apply IH in Hrest. destruct Hrest as (recs & -> & Hrecs).
    exists (rec :: recs). split; [rewrite <- app_assoc; reflexivity|].
    intros Hstatus. apply Forall_app. split.
    + destruct (main_row_creation _ _ _ _ _ _ _ _ _ _ Hrow) as [H|[H|H]];
        try exact H;
        destruct (Hstatus rec (or_introl eq_refl)) as [Hc He]; contradiction.
    + apply Hrecs. intros rec' Hin. apply Hstatus. right. exact Hin.
Qed.

(** C3, as the code has it.  A run of [main] that returns has written the
    report once, after all its calls to the tracker and before its last
    line, with one record for each row of the workbook, numbered from 1
    in the order of the rows; this holds whatever the statuses of the
    records, [error] included. *)
Theorem report_has_one_record_per_row (fuel : nat) (args : Args)
    (environ : list (string * string)) (xl : list (string * DataFrame))
    (w w' : World) (t : list Event) :
  main fuel args environ xl w = (Return tt, w', t) ->
  exists report calls,
    t = calls ++
        [CsvFile "seed-report.csv" report_header report;
         PrintLine "stdout"
           ("Seed finalizado. Linhas: "
            +++ str_int (Z.of_nat (List.length report))
            +++ ". Relatório: seed-report.csv")]
    /\ Forall (fun ev => is_report ev = false) calls
    /\ List.length report = List.length (input_rows xl)
    /\ (forall k rec,
          nth_error report k = Some rec -> row rec = Z.of_nat k + 1).
Proof.
  intros Hmain. pose proof (main_Return_startup _ _ _ _ _ _ _ Hmain) as Hok.
  rewrite (main_run fuel args environ xl Hok) in Hmain.
  apply bind_Return in Hmain.
  destruct Hmain as ([] & w1 & t1 & t2 & Hbase & Hmain & ->).
  apply bind_Return in Hmain.
  destruct Hmain as (report & w2 & t3 & t4 & Hrows & Hmain & ->).
  apply bind_Return in Hmain.
  destruct Hmain as ([] & w3 & t5 & t6 & Hcsv & Hprint & ->).
  unfold emit in Hcsv. injection Hcsv as <- <-.
  unfold print, emit in Hprint. injection Hprint as <- <-.
  exists report, (t1 ++ t3).
  apply main_rows_report in Hrows as Hreport.
  destruct Hreport as (recs & Hrecs & Hnum). cbn [app] in Hrecs. subst recs.
  assert (Hrow : map row report
                 = map (fun k => Z.of_nat k + 1)
                     (seq 0 (List.length (input_rows xl)))).
  { rewrite Hnum, <- (map_map fst (fun i => i + 1)).
    unfold iterrows. rewrite iterrows_from_numbers, map_map, loaded_rows.
    reflexivity. }
  repeat split.
  - rewrite <- app_assoc. reflexivity.
  - apply Forall_app. split.
    + change t1 with (events (Return tt, w1, t1)). rewrite <- Hbase.
      apply ensure_base_labels_events; reflexivity.
    + change t3 with (events (Return report, w2, t3)). rewrite <- Hrows.
      apply main_rows_events; reflexivity.
  - rewrite <- (length_map row report), Hrow, length_map, length_seq.
    reflexivity.
  - intros k rec Hk.
    apply (map_nth_error row) in Hk. rewrite Hrow, nth_error_map in Hk.
    rewrite nth_error_seq in Hk.
    destruct (k <? List.length (input_rows xl))%nat; [|discriminate].
    injection Hk as <-. reflexivity.
Qed.

(** X16.  Idempotence of the batch: a run whose report has no [created]
    and no [error] record, as when every seed id is already in the
    tracker, has made no create-issue call. *)
Lemma run_without_created_record_creates_nothing (fuel : nat) (args : Args)
    (environ : list (string * string)) (xl : list (string * DataFrame))
    (w w' : World) (t : list Event) (path : string) (header : list string)
    (report : list ReportRow) :
  main fuel args environ xl w = (Return tt, w', t) ->
  In (CsvFile path header report) t ->
  (forall rec, In rec report ->
     status rec <> "created" /\ status rec <> "error") ->
  creates_no_issue (repo_of environ) t.
Proof.
  intros Hmain Hin Hstatus.
  pose proof (main_Return_startup _ _ _ _ _ _ _ Hmain) as Hok.
  rewrite (main_run fuel args environ xl Hok) in Hmain.
  apply bind_Return in Hmain.
  destruct Hmain as ([] & w1 & t1 & t2 & Hbase & Hmain & ->).
  apply bind_Return in Hmain.
  destruct Hmain as (report0 & w2 & t3 & t4 & Hrows & Hmain & ->).
  apply bind_Return in Hmain.
  destruct Hmain as ([] & w3 & t5 & t6 & Hcsv & Hprint & ->).
  unfold emit in Hcsv. injection Hcsv as <- <-.
  unfold print, emit in Hprint. injection Hprint as <- <-.
  destruct (phases_create_no_issue (repo_of environ))
    as (Psleep & Pget & Plabel).
  assert (Hbase' : Forall (fun ev => is_report ev = false) t1).
  { change t1 with (events (Return tt, w1, t1)). rewrite <- Hbase.
    apply ensure_base_labels_events; reflexivity. }
  assert (Hrows' : Forall (fun ev => is_report ev = false) t3).
  { change t3 with (events (Return report0, w2, t3)). rewrite <- Hrows.
    apply main_rows_events; reflexivity. }
  assert (Hreport : report = report0).
  { rewrite !in_app_iff in Hin. destruct Hin as [Hin|[Hin|[Hin|Hin]]].
    - rewrite Forall_forall in Hbase'. apply Hbase' in Hin. discriminate.
    - rewrite Forall_forall in Hrows'. apply Hrows' in Hin. discriminate.
    - destruct Hin as [[= _ _ <-]|[]]. reflexivity.
    - destruct Hin as [Hin|[]]. discriminate. }
  subst report0.
  apply main_rows_creation in Hrows. destruct Hrows as (recs & Hrecs & Hnone).
  cbn [app] in Hrecs. subst recs.
  apply Forall_app. split.
  - change t1 with (events (Return tt, w1, t1)). rewrite <- Hbase.
    apply ensure_base_labels_events; assumption.
  - apply Forall_app. split; [exact (Hnone Hstatus)|].
    repeat constructor.
Qed.

Lemma gh_first_call (headers : Headers) (method path : string)
    (kwargs : Kwargs) (w : World) :
  exists rest,
    events (gh headers method path kwargs w)
    = Request method (GH_API +++ path) headers kwargs :: rest.
Proof.
  rewrite gh_run. cbv zeta.
  destruct (requests_request method _ headers kwargs w) as [[r1|e1] w1].
  - destruct (rate_limited r1).
    + destruct (requests_request method _ headers kwargs w1) as [[r2|e2] w2];
        [destruct (_ && _)|]; eexists; reflexivity.
    + destruct (_ && _); eexists; reflexivity.
  - eexists; reflexivity.
Qed.

Lemma bind_begins {A B : Type} (m : M A) (f : A -> M B) (w : World) :
  exists rest, events (bind m f w) = events (m w) ++ rest.
Proof.
  unfold bind, events.
  destruct (m w) as [[[a|e|] w1] t1]; cbn [snd];
    try (exists []; symmetry; apply app_nil_r).
  destruct (f a w1) as [[o w2] t2]. exists t2. reflexivity.
Qed.

Lemma try_except_begins {A : Type} (m : M A) (catches : Exception -> bool)
    (h : Exception -> M A) (w : World) :
  exists rest, events (try_except m catches h w) = events (m w) ++ rest.
Proof.
  unfold try_except, events.
  destruct (m w) as [[[a|e|] w1] t1]; cbn [snd];
    try (exists []; symmetry; apply app_nil_r).
  destruct (catches e); [|exists []; symmetry; apply app_nil_r].
  destruct (h e w1) as [[o w2] t2]. exists t2. reflexivity.
Qed.

(** [ensure_label] begins with the existence check. *)
Lemma ensure_label_checks (headers : Headers) (repo name color : string)
    (desc : option string) (w : World) :
  exists rest,
    events (ensure_label headers repo name color desc w)
    = label_check headers repo name :: rest.
Proof.
  unfold ensure_label, label_check.
  match goal with
  | |- context [try_except ?m ?c ?h w] =>
      destruct (try_except_begins m c h w) as (rest1 & ->)
  end.
  match goal with
  | |- context [bind ?m ?f w] => destruct (bind_begins m f w) as (rest2 & ->)
  end.
  destruct (gh_first_call headers "GET"
              ("/repos/" +++ repo +++ "/labels/" +++ name) [] w)
    as (rest3 & ->).
  eexists. cbn [app]. reflexivity.
Qed.

(** When the check is answered 404, the creation call comes next, with
    the name, the colour and the description if there is one. *)
Lemma ensure_label_creates (headers : Headers) (repo name color : string)
    (desc : option string) (w w1 : World) (r : Response) :
  requests_request "GET"
    (GH_API +++ "/repos/" +++ repo +++ "/labels/" +++ name) headers [] w
    = (Answer r, w1) ->
  status_code r = 404 ->
  exists rest,
    events (ensure_label headers repo name color desc w)
    = label_check headers repo name
      :: label_creation headers repo
           ([("name", VStr name); ("color", VStr color)]
            ++ match desc with
               | Some d => if truthy d then [("description", VStr d)] else []
               | None => []
               end)
      :: rest.
Proof.
  intros Hreply Hstatus.
  unfold ensure_label, try_except, bind at 1, label_check, label_creation.
  rewrite gh_run. cbv zeta. rewrite Hreply.
  unfold rate_limited. rewrite Hstatus. cbn [Z.eqb Pos.eqb andb Z.leb Z.ltb
    Z.compare Pos.compare Pos.compare_cont].
  cbn [is_HTTPError ret]. rewrite Hstatus. cbn [Z.eqb Pos.eqb].
  unfold bind.
  match goal with
  | |- context [gh headers "POST" ?p ?k w1] =>
      destruct (gh_first_call headers "POST" p k w1) as (rest & Hrest);
      destruct (gh headers "POST" p k w1) as [[[r2|e2|] w2] t2]
  end; unfold events in *; cbn [snd] in *; subst t2.
  - exists (rest ++ []). cbn [app]. repeat f_equal.
    destruct desc as [d|]; [destruct (truthy d)|]; reflexivity.
  - exists rest. cbn [app]. repeat f_equal.
    destruct desc as [d|]; [destruct (truthy d)|]; reflexivity.
  - exists rest. cbn [app]. repeat f_equal.
    destruct desc as [d|]; [destruct (truthy d)|]; reflexivity.
Qed.

(** C10.  Past startup validation, whatever [--dry-run] and whatever the
    rows, a run begins with the two base labels, "Tipo:feature" then
    "Tipo:bug", with their colours and descriptions: the calls of [main]
    start with those of that phase, made from the world the run starts in,
    and an exception of the phase ends the run before any row.  For each
    of the two, [ensure_label] first makes the existence check and, when
    the answer is 404, goes on with the creation call. *)
Theorem base_labels_are_ensured_first (fuel : nat) (args : Args)
    (environ : list (string * string)) (xl : list (string * DataFrame))
    (w : World) :
  startup_ok environ xl = true ->
  let headers := headers_of environ in
  let repo := repo_of environ in
  ensure_base_labels headers repo
  = (ensure_label headers repo "Tipo:feature" "3BA55D"
       (Some "Tarefas de implementação") ;;
     ensure_label headers repo "Tipo:bug" "ED4245" (Some "Correções") ;;
     ret tt)
  /\ (exists rest,
        events (main fuel args environ xl w)
        = events (ensure_base_labels headers repo w) ++ rest)
  /\ (forall e w1 t1,
        ensure_base_labels headers repo w = (Raise e, w1, t1) ->
        main fuel args environ xl w = (Raise e, w1, t1))
  /\ (forall name color desc w0,
        In (name, color, desc) base_labels ->
        (exists rest,
           events (ensure_label headers repo name color (Some desc) w0)
           = label_check headers repo name :: rest)
        /\ (forall r w1,
              requests_request "GET"
                (GH_API +++ "/repos/" +++ repo +++ "/labels/" +++ name)
                headers [] w0 = (Answer r, w1) ->
              status_code r = 404 ->
              exists rest,
                events (ensure_label headers repo name color (Some desc) w0)
                = label_check headers repo name
                  :: label_creation headers repo
                       [("name", VStr name); ("color", VStr color);
                        ("description", VStr desc)]
                  :: rest)).
Proof.
  intros Hok headers repo. split; [reflexivity|]. split; [|split].
  - rewrite (main_run fuel args environ xl Hok). apply bind_begins.
  - intros e w1 t1 Hbase. rewrite (main_run fuel args environ xl Hok).
    unfold bind at 1. fold headers repo. rewrite Hbase. reflexivity.
  - intros name color desc w0 Hin. split.
    + apply ensure_label_checks.
    + intros r w1 Hreply Hstatus.
      destruct (ensure_label_creates headers repo name color (Some desc)
                  w0 w1 r Hreply Hstatus) as (rest & Hrest).
      exists rest. rewrite Hrest.
      destruct Hin as [[= <- <- <-]|[[= <- <- <-]|[]]]; reflexivity.
Qed.

End Properties.

(** *** The look-up on a listing *)

Section Lookup.

Variable pages : Listing.
Variable headers : Headers.
Variable repo label : string.

Lemma gh_listing (method path : string) (kwargs : Kwargs) :
  gh headers method path kwargs pages =
  (Return (mkResponse 200 "OK" (GH_API +++ path) ""
             (Some (JArray (pages (Z.to_nat (page_param kwargs - 1)))))
             (mkDecodeError "Expecting value" 1 1 0)),
   pages, [Request method (GH_API +++ path) headers kwargs]).
Proof. rewrite gh_run. reflexivity. Qed.

(** One turn of the loop on page [p + 1]. *)
Lemma find_issue_loop_turn (fuel p : nat) :
  find_issue_loop (S fuel) headers repo label 50 (Z.of_nat p + 1) pages =
  match List.find (is_seed_issue label) (pages p) with
  | Some it => (Return (Some it), pages, [listing_request headers repo label p])
  | None =>
      if (List.length (pages p) <? 50)%nat
      then (Return None, pages, [listing_request headers repo label p])
      else
        let '(o, w, t) :=
          find_issue_loop fuel headers repo label 50 (Z.of_nat (S p) + 1) pages
        in (o, w, listing_request headers repo label p :: t)
  end.
Proof.
  cbn [find_issue_loop]. unfold bind at 1. rewrite gh_listing.
  cbn [json_of json]. unfold bind at 1, ret at 1, page_param.
  cbn [assoc String.eqb Ascii.eqb Bool.eqb].
  replace (Z.to_nat (Z.of_nat p + 1 - 1)) with p by lia.
  replace (Z.of_nat p + 1 + 1) with (Z.of_nat (S p) + 1) by lia.
  fold (listing_request headers repo label p).
  destruct (pages p) as [|it items] eqn:Hp.
  - reflexivity.
  - destruct (List.find (is_seed_issue label) (it :: items)); [reflexivity|].
    replace (Z.of_nat (List.length (it :: items)) <? 50)
      with (List.length (it :: items) <? 50)%nat.
    + destruct (List.length (it :: items) <? 50)%nat; [reflexivity|].
      destruct (find_issue_loop fuel headers repo label 50 _ pages)
        as [[o w] t].
      reflexivity.
    + destruct (Nat.ltb_spec (List.length (it :: items)) 50);
        symmetry; [apply Z.ltb_lt | apply Z.ltb_ge]; lia.
Qed.

(** What a look-up that returns has seen: full pages without a seed issue,
    then the page its result comes from. *)
Lemma find_issue_loop_result (fuel p : nat) (result : option Issue)
    (w : Listing) (t : list Event) :
  find_issue_loop fuel headers repo label 50 (Z.of_nat p + 1) pages
    = (Return result, w, t) ->
  exists k,
    t = map (listing_request headers repo label) (seq p (S k))
    /\ result = List.find (is_seed_issue label) (pages (p + k)%nat)
    /\ (forall j, (j < k)%nat ->
          List.find (is_seed_issue label) (pages (p + j)%nat) = None
          /\ (50 <= List.length (pages (p + j)%nat))%nat)
    /\ (result = None -> (List.length (pages (p + k)%nat) < 50)%nat).
Proof.
  revert p result w t.
  induction fuel as [|fuel IH]; intros p result w t.
  - discriminate.
  - rewrite find_issue_loop_turn.
    destruct (List.find (is_seed_issue label) (pages p)) as [it|] eqn:Hfind.
    + intros [= <- _ <-]. exists 0%nat. rewrite Nat.add_0_r.
      split; [reflexivity|]. split; [auto|]. split; [intros j Hj; lia|].
      discriminate.
    + destruct (Nat.ltb_spec (List.length (pages p)) 50) as [Hshort|Hfull].
      * intros [= <- _ <-]. exists 0%nat. rewrite Nat.add_0_r.
        split; [reflexivity|]. split; [auto|]. split; [intros j Hj; lia|].
        auto.
      * destruct (find_issue_loop fuel headers repo label 50 _ pages)
          as [[o w1] t1] eqn:Hloop.
        intros [= -> _ <-].
        apply IH in Hloop. destruct Hloop as (k & -> & Hres & Hbefore & Hnone).
        exists (S k). rewrite <- Nat.add_succ_comm.
        split; [reflexivity|]. split; [exact Hres|]. split; [|exact Hnone].
        intros j Hj. destruct j as [|j].
        -- rewrite Nat.add_0_r. auto.
        -- rewrite <- Nat.add_succ_comm. apply Hbefore. lia.
Qed.

(** A short page within reach of the fuel ends the look-up. *)
Lemma find_issue_loop_returns (n : nat) :
  forall p fuel,
    (List.length (pages (p + n)%nat) < 50)%nat -> (n < fuel)%nat ->
    exists result t,
      find_issue_loop fuel headers repo label 50 (Z.of_nat p + 1) pages
        = (Return result, pages, t)
      /\ (List.length t <= S n)%nat.
Proof.
  induction n as [|n IH]; intros p fuel Hshort Hfuel;
    (destruct fuel as [|fuel]; [lia|]); rewrite find_issue_loop_turn.
  - rewrite Nat.add_0_r in Hshort.
    destruct (List.find (is_seed_issue label) (pages p)).
    + eexists _, _. split; [reflexivity|]. cbn. lia.
    + apply Nat.ltb_lt in Hshort. rewrite Hshort.
      eexists _, _. split; [reflexivity|]. cbn. lia.
  - destruct (List.find (is_seed_issue label) (pages p)).
    + eexists _, _. split; [reflexivity|]. cbn. lia.
    + destruct (List.length (pages p) <? 50)%nat.
      * eexists _, _. split; [reflexivity|]. cbn. lia.
      * rewrite <- Nat.add_succ_comm in Hshort.
        destruct (IH (S p) fuel Hshort ltac:(lia)) as (result & t & -> & Hlen).
        eexists _, _. split; [reflexivity|]. cbn [List.length]. lia.
Qed.

End Lookup.

Lemma find_first {A : Type} (f : A -> bool) (l : list A) (x : A) :
  List.find f l = Some x ->
  f x = true
  /\ exists before after,
       l = before ++ x :: after /\ forall y, In y before -> f y = false.
Proof.
  induction l as [|a l IH]; cbn [List.find]; [discriminate|].
  destruct (f a) eqn:Ha.
  - intros [= ->]. split; [exact Ha|]. exists [], l. split; [reflexivity|].
    intros y [].
  - intros H. destruct (IH H) as (Hx & before & after & -> & Hbefore).
    split; [exact Hx|]. exists (a :: before), after. split; [reflexivity|].
    intros y [<-|Hy]; auto.
Qed.

Lemma is_seed_issue_true (label : string) (it : Issue) :
  is_seed_issue label it = true <->
  pull_request it = false /\ In label (labels it).
Proof.
  unfold is_seed_issue. rewrite andb_true_iff, negb_true_iff, existsb_exists.
  split; intros [Hpr Hl]; split; try exact Hpr.
  - destruct Hl as (x & Hin & Heq). apply String.eqb_eq in Heq. subst x.
    exact Hin.
  - exists label. split; [exact Hl | apply String.eqb_refl].
Qed.

Lemma is_seed_issue_false (label : string) (it : Issue) :
  is_seed_issue label it = false ->
  pull_request it = true \/ ~ In label (labels it).
Proof.
  intros H. destruct (pull_request it) eqn:Hpr; [left; reflexivity|].
  right. intros Hin.
  assert (Htrue : is_seed_issue label it = true)
    by (apply is_seed_issue_true; auto).
  congruence.
Qed.

Lemma is_not_seed_issue (label : string) (it : Issue) :
  pull_request it = true \/ ~ In label (labels it) ->
  is_seed_issue label it = false.
Proof.
  intros H. destruct (is_seed_issue label it) eqn:Hit; [|reflexivity].
  apply is_seed_issue_true in Hit. destruct Hit as [Hpr Hin].
  destruct H as [H|H]; [congruence | contradiction].
Qed.

Lemma find_nothing {A : Type} (f : A -> bool) (l : list A) :
  (forall y, In y l -> f y = false) -> List.find f l = None.
Proof.
  induction l as [|a l IH]; intros H; cbn [List.find]; [reflexivity|].
  rewrite (H a (or_introl eq_refl)). apply IH.
  intros y Hy. apply H. right. exact Hy.
Qed.

Lemma find_after {A : Type} (f : A -> bool) (before after : list A) (x : A) :
  (forall y, In y before -> f y = false) -> f x = true ->
  List.find f (before ++ x :: after) = Some x.
Proof.
  induction before as [|a before IH]; intros H Hx; cbn [List.find app].
  - rewrite Hx. reflexivity.
  - rewrite (H a (or_introl eq_refl)). apply IH; [|exact Hx].
    intros y Hy. apply H. right. exact Hy.
Qed.

(** The look-up reaches a seed issue that comes after full pages without
    one, when the fuel lets it. *)
Lemma find_issue_loop_finds (pages : Listing) (headers : Headers)
    (repo label : string) (it : Issue) (k : nat) :
  forall p fuel,
    (forall j, (j < k)%nat ->
       List.find (is_seed_issue label) (pages (p + j)%nat) = None
       /\ (50 <= List.length (pages (p + j)%nat))%nat) ->
    List.find (is_seed_issue label) (pages (p + k)%nat) = Some it ->
    (k < fuel)%nat ->
    find_issue_loop fuel headers repo label 50 (Z.of_nat p + 1) pages
    = (Return (Some it), pages,
       map (listing_request headers repo label) (seq p (S k))).
Proof.
  induction k as [|k IH]; intros p fuel Hbefore Hfind Hfuel;
    (destruct fuel as [|fuel]; [lia|]); rewrite find_issue_loop_turn.
  - rewrite Nat.add_0_r in Hfind. rewrite Hfind. reflexivity.
  - destruct (Hbefore 0%nat ltac:(lia)) as [Hnone Hfull].
    rewrite Nat.add_0_r in Hnone, Hfull. rewrite Hnone.
    apply Nat.ltb_ge in Hfull. rewrite Hfull.
    rewrite (IH (S p) fuel).
    + reflexivity.
    + intros j Hj. rewrite Nat.add_succ_comm. apply Hbefore. lia.
    + rewrite Nat.add_succ_comm. exact Hfind.
    + lia.
Qed.

(** C7.  Whatever the tracker answers, an entry that
    [find_issue_by_seed] returns is not a pull request and has the label
    [seed:<seed id>] among its labels.  On any sequence of listing pages
    it is the first such entry of the listing: every entry before it on
    its page, and every entry of the pages before, is a pull request or
    lacks the label; the pages were asked for in order, from page 1 to
    the page of the entry.  And the first such entry is returned: when
    page [k + 1] of the listing has an entry [it] that is not a pull
    request and has the label, no entry before it has both, the pages
    before are full (a page of fewer than 50 entries ends the look-up) and
    the fuel is above [k], [find_issue_by_seed] returns [it], having asked
    for the pages 1 to [k + 1] and no other. *)
Theorem find_issue_by_seed_returns_first_seed_issue (fuel : nat)
    (headers : Headers) (repo seed_uid : string) (it : Issue) :
  (forall (World : Type) (net : Network World) (w w' : World)
          (t : list Event),
     find_issue_by_seed fuel headers repo seed_uid w = (Return (Some it), w', t) ->
     pull_request it = false /\ In ("seed:" +++ seed_uid) (labels it))
  /\ (forall (pages w : Listing) (t : list Event),
        find_issue_by_seed fuel headers repo seed_uid pages
          = (Return (Some it), w, t) ->
        exists k before after,
          pages k = before ++ it :: after
          /\ (forall x, In x before ->
               pull_request x = true
               \/ ~ In ("seed:" +++ seed_uid) (labels x))
          /\ (forall j x, (j < k)%nat -> In x (pages j) ->
               pull_request x = true
               \/ ~ In ("seed:" +++ seed_uid) (labels x))
          /\ t = map (listing_request headers repo ("seed:" +++ seed_uid))
                   (seq 0 (S k)))
  /\ (forall (pages : Listing) (k : nat) (before after : list Issue),
        pages k = before ++ it :: after ->
        pull_request it = false ->
        In ("seed:" +++ seed_uid) (labels it) ->
        (forall x, In x before ->
           pull_request x = true \/ ~ In ("seed:" +++ seed_uid) (labels x)) ->
        (forall j x, (j < k)%nat -> In x (pages j) ->
           pull_request x = true \/ ~ In ("seed:" +++ seed_uid) (labels x)) ->
        (forall j, (j < k)%nat -> (50 <= List.length (pages j))%nat) ->
        (k < fuel)%nat ->
        find_issue_by_seed fuel headers repo seed_uid pages
        = (Return (Some it), pages,
           map (listing_request headers repo ("seed:" +++ seed_uid))
             (seq 0 (S k)))).
Proof.
  split; [|split].
  - intros World net w w' t H. apply is_seed_issue_true.
    exact (find_issue_loop_seed_issue _ _ _ _ _ _ _ _ _ _ H).
  - intros pages w t. unfold find_issue_by_seed.
    change 1 with (Z.of_nat 0 + 1). intros H.
    apply find_issue_loop_result in H.
    destruct H as (k & Ht & Hres & Hbefore & _). cbn [Nat.add] in *.
    symmetry in Hres. apply find_first in Hres.
    destruct Hres as (_ & before & after & Hpage & Hfirst).
    exists k, before, after. split; [exact Hpage|]. split; [|split].
    + intros x Hx. apply is_seed_issue_false, Hfirst, Hx.
    + intros j x Hj Hx. apply is_seed_issue_false.
      destruct (Hbefore j Hj) as [Hnone _].
      apply (find_none _ _ Hnone x Hx).
    + exact Ht.
  - intros pages k before after Hpage Hpr Hlabel Hbefore Hpages Hfull Hfuel.
    unfold find_issue_by_seed. change 1 with (Z.of_nat 0 + 1).
    apply find_issue_loop_finds.
    + intros j Hj. cbn [Nat.add]. split; [|apply Hfull, Hj].
      apply find_nothing. intros y Hy.
      apply is_not_seed_issue, (Hpages j y Hj Hy).
    + cbn [Nat.add]. rewrite Hpage. apply find_after.
      * intros y Hy. apply is_not_seed_issue, Hbefore, Hy.
      * apply is_seed_issue_true. auto.
    + exact Hfuel.
Qed.

(** C8.  When page [n + 1] of the listing has fewer than 50 entries (none,
    for one), [find_issue_by_seed] returns, with any fuel above [n], after
    asking for the pages 1 to [k + 1] for some [k <= n]: the pages before
    page [k + 1] are full and without a seed issue, and the result is the
    first seed issue of page [k + 1], or [None] when that page has none and
    is short. *)
Theorem find_issue_by_seed_terminates (pages : Listing) (n fuel : nat)
    (headers : Headers) (repo seed_uid : string) :
  (List.length (pages n) < 50)%nat ->
  (n < fuel)%nat ->
  exists k result,
    (k <= n)%nat
    /\ find_issue_by_seed fuel headers repo seed_uid pages
       = (Return result, pages,
          map (listing_request headers repo ("seed:" +++ seed_uid))
            (seq 0 (S k)))
    /\ result = List.find (is_seed_issue ("seed:" +++ seed_uid)) (pages k)
    /\ (forall j, (j < k)%nat ->
          List.find (is_seed_issue ("seed:" +++ seed_uid)) (pages j) = None
          /\ (50 <= List.length (pages j))%nat)
    /\ (result = None -> (List.length (pages k) < 50)%nat).
Proof.
  intros Hshort Hfuel. unfold find_issue_by_seed.
  change 1 with (Z.of_nat 0 + 1).
  destruct (find_issue_loop_returns pages headers repo ("seed:" +++ seed_uid)
              n 0 fuel Hshort Hfuel) as (result & t & Hrun & Hlen).
  pose proof (find_issue_loop_result _ _ _ _ _ _ _ _ _ Hrun) as Hres.
  destruct Hres as (k & -> & Hresult & Hbefore & Hnone). cbn [Nat.add] in *.
  exists k, result. rewrite length_map, length_seq in Hlen.
  split; [lia|]. split; [exact Hrun|]. auto.
Qed.

(** *** Runs on a scripted tracker *)

(** C2 (the code departs from the claim).  On the sample workbook of two
    rows, past startup validation, a 500 answer to the existence check of
    the first row's label "Semana:1", or to its look-up, leaves [main] by
    an [HTTPError]: the run ends there, without a record for either row
    and without the report.  Only the creation call is inside the [try]
    of lines 173 to 179. *)
Theorem label_or_lookup_failure_ends_the_batch :
  let at_label := main 2 real_run sample_environ sample_xl
                    [ok; ok; server_error] in
  let at_lookup := main 2 real_run sample_environ sample_xl
                     [ok; ok; ok; ok; server_error] in
  startup_ok sample_environ sample_xl = true
  /\ List.length (input_rows sample_xl) = 2%nat
  /\ (exists msg r, outcome at_label = Raise (HTTPError msg r)
                    /\ status_code r = 500)
  /\ last (events at_label) (Sleep 0)
     = label_check sample_headers sample_repo "Semana:1"
  /\ filter is_report (events at_label) = []
  /\ (exists msg r, outcome at_lookup = Raise (HTTPError msg r)
                    /\ status_code r = 500)
  /\ last (events at_lookup) (Sleep 0)
     = listing_request sample_headers sample_repo "seed:W1-01" 0
  /\ filter is_report (events at_lookup) = [].
Proof.
  vm_compute. repeat split; eauto.
Qed.

(** C5 (the code departs from the claim).  For a row whose week cell reads
    " nan", the label "Semana:nan" is among those the loop of line 156
    leaves out, and no existence check is made for it; the payload of the
    create-issue call has it all the same, since line 168 leaves out only
    the names that end with ":". *)
Theorem nan_label_is_sent_with_the_issue :
  let r := sample_row "W1-02" "Write docs" " nan" in
  let run := main_row 1 sample_headers sample_repo real_run 1 r
               [ok; listing []; created "https://tracker/issues/11"] in
  map fst (dyn r (seed_uid_of r))
  = ["Semana:nan"; "SQUAD:"; "Papel:"; "IA:"; "IdAluno:"; "seed:W1-02"]
  /\ not_ensured "Semana:nan" = true
  /\ filter is_request (events run)
     = [ label_check sample_headers sample_repo "seed:W1-02";
         listing_request sample_headers sample_repo "seed:W1-02" 0;
         issue_creation sample_headers sample_repo
           (issue_payload "Write docs" (build_body r)
              (dyn r (seed_uid_of r))) ]
  /\ assoc "labels"
       (issue_payload "Write docs" (build_body r) (dyn r (seed_uid_of r)))
     = Some (VList ["Semana:nan"; "seed:W1-02"]).
Proof.
  vm_compute. repeat split.
Qed.

(** X11.  The part of C2 the code has: an exception of the create-issue
    call (an error status, a lost connection) is kept, by its message, in
    an [error] record of the row, and the row returns. *)
Lemma creation_failure_is_reported {World : Type} {net : Network World}
    (fuel : nat) (headers : Headers) (repo : string) (args : Args) (idx : Z)
    (r : Series) (e : Exception) (w w1 w2 w3 : World) (t1 t2 t3 : list Event) :
  seed_uid_of r <> "" ->
  titulo_of r <> "" ->
  dry_run args = false ->
  ensure_dyn headers repo (dyn r (seed_uid_of r)) w = (Return tt, w1, t1) ->
  find_issue_by_seed fuel headers repo (seed_uid_of r) w1
    = (Return None, w2, t2) ->
  gh headers "POST" ("/repos/" +++ repo +++ "/issues")
    [("json", issue_payload (titulo_of r) (build_body r)
                (dyn r (seed_uid_of r)))] w2
    = (Raise e, w3, t3) ->
  is_Exception e = true ->
  main_row fuel headers repo args idx r w =
  (Return (mkReportRow "error" (idx + 1) (titulo_of r) "" "" (str_exception e)),
   w3, t1 ++ t2 ++ t3).
Proof.
  intros Hs Ht Hdry Hensure Hfind Hpost He.
  unfold main_row. fold (seed_uid_of r) (titulo_of r).
  rewrite (row_is_valid r Hs Ht).
  unfold bind at 1. rewrite Hensure.
  unfold bind at 1. rewrite Hfind, Hdry.
  unfold try_except, bind at 1. rewrite Hpost, He.
  unfold ret. rewrite !app_nil_r. reflexivity.
Qed.

(** The claim C3 fails where a base label cannot be checked: the run is
    past startup validation, the workbook has two rows, and [main] is left
    by an [HTTPError] before anything is written. *)
Lemma no_report_when_a_base_label_fails :
  let run := main 2 real_run sample_environ sample_xl [server_error] in
  startup_ok sample_environ sample_xl = true
  /\ List.length (input_rows sample_xl) = 2%nat
  /\ (exists msg r, outcome run = Raise (HTTPError msg r))
  /\ filter is_report (events run) = [].
Proof.
  vm_compute. repeat split; eauto.
Qed.

(** The claim C6 fails on the labels: in a dry run, a row whose label is
    not in the tracker makes the POST that creates it, and is reported
    [dry-run]. *)
Lemma dry_run_still_creates_labels :
  let run := main_row 1 sample_headers sample_repo simulated_run 0
               (sample_row "W1-01" "Setup repo" "1")
               [not_found; created ""; ok; listing []] in
  dry_run simulated_run = true
  /\ outcome run = Return (mkReportRow "dry-run" 1 "Setup repo" "" "" "")
  /\ filter is_mutating (events run)
     = [ label_creation sample_headers sample_repo
           [("name", VStr "Semana:1"); ("color", VStr "7289DA")] ].
Proof.
  vm_compute. repeat split.
Qed.

(** *** The theorems at work *)

Lemma blank_row_is_skipped_witness :
  main_row 1 sample_headers sample_repo real_run 4
    (sample_row "   " "Setup repo" "1") [server_error]
  = (Return (mkReportRow "skip" 5 "Setup repo" "" "missing uid/title" ""),
     [server_error], []).
Proof.
  apply (blank_row_is_skipped 1 sample_headers sample_repo real_run 4
           (sample_row "   " "Setup repo" "1") [server_error]).
  left. reflexivity.
Defined.

Lemma existing_issue_is_not_recreated_witness :
  let r := sample_row "W1-01" "Setup repo" "1" in
  let existing := seed_issue "W1-01" "https://tracker/issues/9" in
  let t := [ label_check sample_headers sample_repo "Semana:1";
             label_check sample_headers sample_repo "seed:W1-01";
             listing_request sample_headers sample_repo "seed:W1-01" 0 ] in
  main_row 1 sample_headers sample_repo real_run 0 r
    [ok; ok; listing [existing]; created "https://tracker/issues/12"]
  = (Return (mkReportRow "exists" 1 "Setup repo" "https://tracker/issues/9"
               "seed:W1-01" ""),
     [created "https://tracker/issues/12"], t)
  /\ creates_no_issue sample_repo t.
Proof.
  intros r existing t.
  apply (existing_issue_is_not_recreated 1 sample_headers sample_repo real_run
           0 r existing
           [ok; ok; listing [existing]; created "https://tracker/issues/12"]
           [listing [existing]; created "https://tracker/issues/12"]
           [created "https://tracker/issues/12"]
           [ label_check sample_headers sample_repo "Semana:1";
             label_check sample_headers sample_repo "seed:W1-01" ]
           [ listing_request sample_headers sample_repo "seed:W1-01" 0 ]).
  - vm_compute. discriminate.
  - vm_compute. discriminate.
  - reflexivity.
  - reflexivity.
Defined.

Lemma dry_run_creates_no_issue_witness :
  let r := sample_row "W1-01" "Setup repo" "1" in
  let script := [not_found; created ""; ok; listing [];
                 created "https://tracker/issues/12"] in
  creates_no_issue sample_repo
    (events (main_row 1 sample_headers sample_repo simulated_run 0 r script))
  /\ main_row 1 sample_headers sample_repo simulated_run 0 r script
     = (Return (mkReportRow "dry-run" 1 "Setup repo" "" "" ""),
        [created "https://tracker/issues/12"],
        [ label_check sample_headers sample_repo "Semana:1";
          label_creation sample_headers sample_repo
            [("name", VStr "Semana:1"); ("color", VStr "7289DA")];
          label_check sample_headers sample_repo "seed:W1-01";
          listing_request sample_headers sample_repo "seed:W1-01" 0 ]).
Proof.
  intros r script.
  destruct (dry_run_creates_no_issue 1 sample_headers sample_repo
              simulated_run 0 r script eq_refl) as (Hnone & Hrecord & _).
  split; [exact Hnone|].
  apply (Hrecord
           [listing []; created "https://tracker/issues/12"]
           [ label_check sample_headers sample_repo "Semana:1";
             label_creation sample_headers sample_repo
               [("name", VStr "Semana:1"); ("color", VStr "7289DA")];
             label_check sample_headers sample_repo "seed:W1-01" ]
           [created "https://tracker/issues/12"]
           [ listing_request sample_headers sample_repo "seed:W1-01" 0 ]).
  - vm_compute. discriminate.
  - vm_compute. discriminate.
  - reflexivity.
  - reflexivity.
Defined.

Lemma gh_retries_rate_limit_once_witness :
  let call := Request "GET" (GH_API +++ "/repos/squad/backlog/issues") [] [] in
  events (gh [] "GET" "/repos/squad/backlog/issues" [] [rate_limit; rate_limit; ok])
  = [call; Sleep 5000; call]
  /\ (exists msg r,
        outcome (gh [] "GET" "/repos/squad/backlog/issues" []
                   [rate_limit; rate_limit; ok])
        = Raise (HTTPError msg r) /\ status_code r = 403).
Proof.
  intros call.
  destruct (gh_retries_rate_limit_once [] "GET" "/repos/squad/backlog/issues"
              [] [rate_limit; rate_limit; ok]) as (Hretry & _ & _).
  destruct (Hretry (mkResponse 403 "Forbidden" "" "API rate limit exceeded" None
                 expecting_value)
              eq_refl eq_refl) as (Hevents & Hsecond & _).
  split; [exact Hevents|].
  destruct (Hsecond (mkResponse 403 "Forbidden" "" "API rate limit exceeded" None
                 expecting_value)
              eq_refl) as (Hagain & _ & _).
  eexists _, _. split; [exact (Hagain eq_refl) | reflexivity].
Defined.

Lemma report_has_one_record_per_row_witness :
  let script := [ok; ok; ok; ok; listing []; server_error; ok; ok;
                 listing [seed_issue "W1-02" "https://tracker/issues/3"]] in
  exists report calls,
    events (main 2 real_run sample_environ sample_xl script)
    = calls ++
      [CsvFile "seed-report.csv" report_header report;
       PrintLine "stdout"
         ("Seed finalizado. Linhas: "
          +++ str_int (Z.of_nat (List.length report))
          +++ ". Relatório: seed-report.csv")]
    /\ Forall (fun ev => is_report ev = false) calls
    /\ List.length report = List.length (input_rows sample_xl)
    /\ (forall k rec,
          nth_error report k = Some rec -> row rec = Z.of_nat k + 1).
Proof.
  intros script.
  apply (report_has_one_record_per_row 2 real_run sample_environ sample_xl
           script []).
  vm_compute. reflexivity.
Defined.

Lemma base_labels_are_ensured_first_witness :
  let script := [not_found; created ""; not_found; created ""] in
  exists rest,
    events (main 2 simulated_run sample_environ blank_xl script)
    = [ label_check sample_headers sample_repo "Tipo:feature";
        label_creation sample_headers sample_repo
          [("name", VStr "Tipo:feature"); ("color", VStr "3BA55D");
           ("description", VStr "Tarefas de implementação")];
        label_check sample_headers sample_repo "Tipo:bug";
        label_creation sample_headers sample_repo
          [("name", VStr "Tipo:bug"); ("color", VStr "ED4245");
           ("description", VStr "Correções")] ] ++ rest.
Proof.
  intros script.
  destruct (base_labels_are_ensured_first 2 simulated_run sample_environ
              blank_xl script eq_refl) as (_ & Hfirst & _).
  exact Hfirst.
Defined.

Lemma find_issue_by_seed_returns_first_seed_issue_witness :
  let it := seed_issue "W1-01" "https://tracker/issues/9" in
  (pull_request it = false /\ In "seed:W1-01" (labels it))
  /\ (exists k before after,
        sample_listing k = before ++ it :: after
        /\ (forall x, In x before ->
             pull_request x = true \/ ~ In "seed:W1-01" (labels x))
        /\ (forall j x, (j < k)%nat -> In x (sample_listing j) ->
             pull_request x = true \/ ~ In "seed:W1-01" (labels x))
        /\ [ listing_request sample_headers sample_repo "seed:W1-01" 0;
             listing_request sample_headers sample_repo "seed:W1-01" 1 ]
           = map (listing_request sample_headers sample_repo "seed:W1-01")
               (seq 0 (S k)))
  /\ find_issue_by_seed 2 sample_headers sample_repo "W1-01" sample_listing
     = (Return (Some it), sample_listing,
        [ listing_request sample_headers sample_repo "seed:W1-01" 0;
          listing_request sample_headers sample_repo "seed:W1-01" 1 ]).
Proof.
  intros it.
  destruct (find_issue_by_seed_returns_first_seed_issue 2 sample_headers
              sample_repo "W1-01" it) as (Hissue & Hfirst & Hfound).
  split; [|split].
  - apply (Hissue (list Reply) script_network
             [listing [seed_pull_request "W1-01" "https://tracker/pull/7"; it]]
             []
             [listing_request sample_headers sample_repo "seed:W1-01" 0]).
    reflexivity.
  - apply (Hfirst sample_listing sample_listing). reflexivity.
  - apply (Hfound sample_listing 1%nat
             [mkIssue false ["Tipo:bug"] "https://tracker/issues/8"]
             [seed_issue "W1-01" "https://tracker/issues/10"]).
    + reflexivity.
    + reflexivity.
    + right. left. reflexivity.
    + intros x [<-|[]]. right. intros [H|[]]. discriminate H.
    + intros j x Hj Hx. assert (Hj0 : j = 0%nat) by lia. subst j.
      apply repeat_spec in Hx. subst x. left. reflexivity.
    + intros j Hj. assert (Hj0 : j = 0%nat) by lia. subst j.
      cbn [sample_listing]. rewrite repeat_length. lia.
    + lia.
Defined.

Lemma find_issue_by_seed_terminates_witness :
  exists k result,
    (k <= 1)%nat
    /\ find_issue_by_seed 2 sample_headers sample_repo "W1-02" sample_listing
       = (Return result, sample_listing,
          map (listing_request sample_headers sample_repo "seed:W1-02")
            (seq 0 (S k)))
    /\ result = List.find (is_seed_issue "seed:W1-02") (sample_listing k)
    /\ (forall j, (j < k)%nat ->
          List.find (is_seed_issue "seed:W1-02") (sample_listing j) = None
          /\ (50 <= List.length (sample_listing j))%nat)
    /\ (result = None -> (List.length (sample_listing k) < 50)%nat).
Proof.
  apply (find_issue_by_seed_terminates sample_listing 1 2 sample_headers
           sample_repo "W1-02").
  - vm_compute. lia.
  - lia.
Defined.

(** *** Runs on a tracker that keeps its issues *)

(** C1 (the code departs from the claim).  A row whose seed id ends with a
    colon, [W1:], is created again by every run.  From an empty tracker,
    two runs of [main] over the same workbook both return; each makes the
    create-issue call once, the same call, and reports the row as
    [created], under two different issues.  The payload's labels leave out
    every name that ends with a colon, so the issue is stored without
    [seed:W1:], the label the next run looks for, although its body has
    the marker of the seed id.  The same two runs over a row with the seed
    id [W1-01] create one issue, which the second run reports as
    [exists]. *)
Theorem rerun_creates_a_second_issue :
  let first := main 2 real_run sample_environ colon_xl empty_tracker in
  let second := main 2 real_run sample_environ colon_xl (world first) in
  let first' := main 2 real_run sample_environ single_xl empty_tracker in
  let second' := main 2 real_run sample_environ single_xl (world first') in
  outcome first = Return tt
  /\ outcome second = Return tt
  /\ map seed_uid_of (loaded_rows_of colon_xl) = ["W1:"]
  /\ written_report (events first)
     = [mkReportRow "created" 1 "Setup repo" "https://tracker/issues/1"
          "seed:W1:" ""]
  /\ written_report (events second)
     = [mkReportRow "created" 1 "Setup repo" "https://tracker/issues/2"
          "seed:W1:" ""]
  /\ creations sample_repo (events first) = 1%nat
  /\ creations sample_repo (events second) = 1%nat
  /\ filter (is_create_issue sample_repo) (events second)
     = filter (is_create_issue sample_repo) (events first)
  /\ tracker_issues (world second)
     = [ mkIssue false ["Semana:1"] "https://tracker/issues/1";
         mkIssue false ["Semana:1"] "https://tracker/issues/2" ]
  /\ written_report (events second')
     = [mkReportRow "exists" 1 "Setup repo" "https://tracker/issues/1"
          "seed:W1-01" ""]
  /\ creations sample_repo (events second') = 0%nat
  /\ tracker_issues (world second')
     = [ mkIssue false ["Semana:1"; "seed:W1-01"] "https://tracker/issues/1" ].
Proof.
  cbv zeta. repeat split; vm_compute; reflexivity.
Qed.

(** ** More of the program

    *** Strings *)

Lemma rev_string_acc (s acc : string) :
  rev_string s acc = rev_string s EmptyString +++ acc.
Proof.
  revert acc. induction s as [|c s IH]; intros acc; cbn [rev_string].
  - reflexivity.
  - rewrite (IH (String c acc)), (IH (String c EmptyString)).
    generalize (rev_string s EmptyString). intros p.
    induction p as [|d p IHp]; cbn [String.append].
    + reflexivity.
    + rewrite IHp. reflexivity.
Qed.

Lemma append_assoc (a b c : string) : (a +++ b) +++ c = a +++ b +++ c.
Proof.
  induction a as [|x a IH]; cbn [String.append]; [reflexivity|].
  rewrite IH. reflexivity.
Qed.

Lemma rev_string_append (a b : string) :
  rev_string (a +++ b) EmptyString
  = rev_string b EmptyString +++ rev_string a EmptyString.
Proof.
  revert b. induction a as [|c a IH]; intros b; cbn [String.append rev_string].
  - generalize (rev_string b EmptyString). intros p.
    induction p as [|d p IHp]; cbn [String.append]; [reflexivity|].
    rewrite <- IHp. reflexivity.
  - rewrite (rev_string_acc (a +++ b)), (rev_string_acc a), IH.
    apply append_assoc.
Qed.

Lemma prefix_append (p q : string) : String.prefix p (p +++ q) = true.
Proof.
  induction p as [|c p IH]; cbn [String.append String.prefix].
  - destruct q; reflexivity.
  - destruct (ascii_dec c c) as [_|Hne]; [exact IH | contradiction].
Qed.

(** [(a + b).endswith(b)] *)
Lemma endswith_append (a b : string) : endswith (a +++ b) b = true.
Proof.
  unfold endswith. rewrite rev_string_append. apply prefix_append.
Qed.

Lemma rev_string_nonempty (b : string) :
  b <> "" -> exists c rest, rev_string b EmptyString = String c rest.
Proof.
  destruct b as [|x b]; [contradiction|]. intros _.
  cbn [rev_string]. rewrite rev_string_acc.
  destruct (rev_string b EmptyString) as [|c rest]; cbn [String.append];
    eauto.
Qed.

(** Whether a string ends with a given character is decided by its last
    part, when that part is not empty. *)
Lemma endswith_char_append (a b : string) (c : ascii) :
  b <> "" ->
  endswith (a +++ b) (String c EmptyString) = endswith b (String c EmptyString).
Proof.
  intros Hb. unfold endswith. rewrite rev_string_append.
  destruct (rev_string_nonempty b Hb) as (x & rest & ->).
  cbn [rev_string String.append String.prefix].
  destruct (ascii_dec c x); [|reflexivity].
  destruct (rest +++ rev_string a EmptyString); destruct rest; reflexivity.
Qed.

Lemma concat_last (sep : string) (l : list string) (m : string) :
  exists before, String.concat sep (l ++ [m]) = before +++ m.
Proof.
  induction l as [|x l IH].
  - exists EmptyString. reflexivity.
  - destruct IH as (before & IH). cbn [app].
    destruct (l ++ [m]) as [|y l'] eqn:Hl.
    + destruct l; discriminate.
    + cbn [String.concat]. cbn [String.concat] in IH. rewrite IH.
      exists (x +++ sep +++ before). rewrite !append_assoc. reflexivity.
Qed.

(** *** The body and the labels of an issue *)

Lemma add_line (parts : list string) (r : Series) (h : string) :
  add parts h (get r h) = parts ++ body_line r h.
Proof.
  unfold add, body_line.
  destruct (truthy (strip _)); [reflexivity | symmetry; apply app_nil_r].
Qed.

Lemma strip_empty : strip "" = "".
Proof. reflexivity. Qed.

(** For a row with a seed id, line 86 of [build_body] reads the same seed
    id as line 134 of [main]. *)
Lemma body_seed_uid (r : Series) :
  seed_uid_of r <> "" ->
  strip (str_cell (get_default r "Issue UID")) = seed_uid_of r.
Proof.
  unfold seed_uid_of, get_default, or_empty, bool_cell.
  destruct (get r "Issue UID") as [[s|n f|[] repr|[] repr]|]; cbn [str_cell];
    try reflexivity; try (rewrite strip_empty; contradiction).
  - destruct (truthy s) eqn:Hs; [reflexivity|].
    cbn [str_cell]. rewrite strip_empty. contradiction.
  - destruct (negb (n =? 0)); [reflexivity|].
    cbn [str_cell]. rewrite strip_empty. contradiction.
Qed.

(** X1.  The body of an issue is, one per line and in the order of the
    source, the fields of the row whose value is not blank, each as
    [**Field:** value] with the value as the cell has it, then an empty
    line and the marker [<!-- seed_id:... -->]; a field that is blank, or
    whose column the row does not have, leaves no line. *)
Theorem build_body_lists_filled_fields (r : Series) :
  build_body r =
  String.concat nl
    (flat_map (body_line r) body_fields
     ++ [seed_marker (strip (str_cell (get_default r "Issue UID")))]).
Proof.
  unfold build_body, body_fields, seed_marker. rewrite !add_line.
  cbn [flat_map]. rewrite !app_nil_l, app_nil_r, <- !app_assoc.
  reflexivity.
Qed.

(** X2.  For a row with a seed id, the body of its issue ends with the
    marker of that same seed id: the hidden marker and the label
    [seed:<seed id>] name the same row. *)
Theorem body_ends_with_marker_of_seed_id (r : Series) :
  seed_uid_of r <> "" ->
  endswith (build_body r) (seed_marker (seed_uid_of r)) = true.
Proof.
  intros Hs. unfold build_body. rewrite (body_seed_uid r Hs).
  fold (seed_marker (seed_uid_of r)).
  match goal with
  | |- context [String.concat nl (?l ++ [?m])] =>
      destruct (concat_last nl l m) as (before & ->)
  end.
  apply endswith_append.
Qed.

Lemma payload_labels_filter (titulo body : string) (l : list (string * string)) :
  payload_labels (issue_payload titulo body l)
  = filter (fun n => negb (endswith n ":")) (map fst l).
Proof. reflexivity. Qed.

(** X3.  The labels sent with the issue of a row are the dynamic labels
    whose name does not end with ":".  Every label the row ensured is
    among them, and the seed label is among them exactly when the seed id
    does not itself end with ":". *)
Theorem payload_labels_of_a_row (titulo body : string) (r : Series)
    (seed_uid : string) :
  let sent := payload_labels (issue_payload titulo body (dyn r seed_uid)) in
  (forall name,
     In name sent <->
     In name (map fst (dyn r seed_uid)) /\ endswith name ":" = false)
  /\ (forall name color,
        In (name, color) (dyn r seed_uid) -> not_ensured name = false ->
        In name sent)
  /\ (seed_uid <> "" ->
      (In ("seed:" +++ seed_uid) sent <-> endswith seed_uid ":" = false)).
Proof.
  intros sent. subst sent. rewrite payload_labels_filter.
  assert (Hsent : forall name,
             In name (filter (fun n => negb (endswith n ":"))
                        (map fst (dyn r seed_uid))) <->
             In name (map fst (dyn r seed_uid)) /\ endswith name ":" = false).
  { intros name. rewrite filter_In, negb_true_iff. reflexivity. }
  split; [exact Hsent|]. split.
  - intros name color Hin Hens. apply Hsent. split.
    + apply (in_map fst) in Hin. exact Hin.
    + unfold not_ensured in Hens. apply orb_false_iff in Hens.
      destruct Hens as [Hens _]. apply orb_false_iff in Hens. tauto.
  - intros Hs. rewrite Hsent.
    rewrite (endswith_char_append "seed:" seed_uid ":"%char Hs).
    split; [tauto|]. intros H. split; [|exact H].
    unfold dyn. cbn [map fst In]. tauto.
Qed.

(** *** Startup *)

(** X4.  When a credential or the repository is missing, or no sheet of
    the workbook has columns, [main] prints one line on stderr and exits:
    with code 2 for the environment, which is looked at first, with code 3
    for the workbook.  Nothing is asked of the tracker and no report is
    written. *)
Theorem startup_failure_makes_no_call {World : Type} {net : Network World}
    (fuel : nat) (args : Args) (environ : list (string * string))
    (xl : list (string * DataFrame)) (w : World) :
  startup_ok environ xl = false ->
  exists code msg,
    main fuel args environ xl w
      = (Raise (SystemExit code), w, [PrintLine "stderr" msg])
    /\ (code = 2 <->
        falsy (or_else (assoc "GITHUB_TOKEN" environ) (assoc "GH_TOKEN" environ))
        || falsy (assoc "GITHUB_REPOSITORY" environ) = true)
    /\ (code = 3 <->
        falsy (or_else (assoc "GITHUB_TOKEN" environ) (assoc "GH_TOKEN" environ))
        || falsy (assoc "GITHUB_REPOSITORY" environ) = false).
Proof.
  unfold startup_ok, main. intros Hok.
  destruct (falsy _ || falsy _).
  - eexists 2, _. split; [reflexivity|]. split; split; auto; discriminate.
  - destruct (read_frames xl); [|discriminate].
    eexists 3, _. split; [reflexivity|]. split; split; auto; discriminate.
Qed.

(** *** The calls of a run, one by one *)

Section Surface.

Context {World : Type} {net : Network World}.
Variable headers : Headers.
Variable repo : string.

Lemma gh_calls (method path : string) (kwargs : Kwargs) (w : World) :
  Forall (fun ev => ev = Sleep 5000
                    \/ ev = Request method (GH_API +++ path) headers kwargs)
    (events (gh headers method path kwargs w)).
Proof.
  rewrite gh_run. cbv zeta.
  destruct (requests_request method _ headers kwargs w) as [[r1|e1] w1].
  - destruct (rate_limited r1).
    + destruct (requests_request method _ headers kwargs w1) as [[r2|e2] w2];
        [destruct (_ && _)|]; unfold events; cbn [snd];
        repeat (apply Forall_cons || apply Forall_nil); auto.
    + destruct (_ && _); unfold events; cbn [snd];
        repeat (apply Forall_cons || apply Forall_nil); auto.
  - unfold events; cbn [snd];
      repeat (apply Forall_cons || apply Forall_nil); auto.
Qed.

Lemma ensure_label_calls (name color : string) (desc : option string)
    (w : World) :
  Forall (fun ev => ev = Sleep 5000
                    \/ ev = label_check headers repo name
                    \/ ev = label_creation headers repo
                              (label_payload name color desc))
    (events (ensure_label headers repo name color desc w)).
Proof.
  unfold ensure_label. apply try_except_events.
  - apply bind_events; [|intros; apply ret_events].
    eapply Forall_impl; [|apply gh_calls]. cbv beta.
    intros ev [H|H]; [left; exact H | right; left; exact H].
  - intros e w1. destruct e; try apply raise_events.
    destruct (status_code response =? 404); [|apply raise_events].
    apply bind_events; [|intros; apply ret_events].
    eapply Forall_impl; [|apply gh_calls]. cbv beta.
    intros ev [H|H]; [left; exact H | right; right].
    rewrite H. unfold label_creation, label_payload.
    destruct desc as [d|]; [destruct (truthy d)|];
      rewrite ?app_nil_r; reflexivity.
Qed.

(** X7.  Whatever the tracker answers, the label phase of a row asks only
    about labels of the row that line 157 lets through (names that end
    with ":", ":nan" or ":NaN" are never checked nor created), and creates
    a label with its name and the colour the row gives it. *)
Lemma ensure_dyn_calls (l : list (string * string)) (w : World) :
  Forall (fun ev =>
            ev = Sleep 5000
            \/ exists name color,
                 In (name, color) l /\ not_ensured name = false
                 /\ (ev = label_check headers repo name
                     \/ ev = label_creation headers repo
                               [("name", VStr name); ("color", VStr color)]))
    (events (ensure_dyn headers repo l w)).
Proof.
  unfold ensure_dyn. revert w.
  induction l as [|[name color] l IH]; intros w; cbn [for_each].
  - apply ret_events.
  - apply bind_events.
    + destruct (not_ensured name) eqn:Hens; [apply ret_events|].
      eapply Forall_impl; [|apply ensure_label_calls]. cbv beta.
      intros ev [H|H]; [left; exact H | right].
      exists name, color. split; [left; reflexivity|]. split; [exact Hens|].
      exact H.
    + intros _ w1. eapply Forall_impl; [|apply IH]. cbv beta.
      intros ev [H|(n & c & Hin & Hens & H)]; [left; exact H | right].
      exists n, c. split; [right; exact Hin|]. auto.
Qed.

Lemma find_issue_loop_calls (fuel : nat) (label : string) (page : Z)
    (w : World) :
  Forall (fun ev =>
            ev = Sleep 5000
            \/ exists p, page <= p < page + Z.of_nat fuel
                         /\ ev = issue_listing headers repo label p)
    (events (find_issue_loop fuel headers repo label 50 page w)).
Proof.
  revert page w.
  induction fuel as [|fuel IH]; intros page w; cbn [find_issue_loop].
  - constructor.
  - assert (Hnext : forall w1,
              Forall (fun ev =>
                        ev = Sleep 5000
                        \/ exists p, page <= p < page + Z.of_nat (S fuel)
                                     /\ ev = issue_listing headers repo label p)
                (events (find_issue_loop fuel headers repo label 50
                           (page + 1) w1))).
    { intros w1. eapply Forall_impl; [|apply IH]. cbv beta.
      intros ev [H|(p & Hp & H)]; [left; exact H | right].
      exists p. split; [|exact H].
      rewrite Nat2Z.inj_succ. lia. }
    apply bind_events.
    + eapply Forall_impl; [|apply gh_calls]. cbv beta.
      intros ev [H|H]; [left; exact H | right].
      exists page. split; [|exact H].
      rewrite Nat2Z.inj_succ. lia.
    + intros r w1. apply bind_events; [apply json_of_events|]. intros j w2.
      destruct j as [[|it items]|[|kv fields]]; try apply ret_events.
      * destruct (List.find (is_seed_issue label) (it :: items));
          [apply ret_events|].
        destruct (Z.of_nat (List.length (it :: items)) <? 50);
          [apply ret_events | apply Hnext].
      * destruct (forallb _ (kv :: fields)); [|apply raise_events].
        destruct (Z.of_nat (List.length (kv :: fields)) <? 50);
          [apply ret_events | apply Hnext].
Qed.

Lemma ensure_label_row_calls (name color : string) (desc : option string)
    (w : World) :
  Forall (row_call headers repo) (events (ensure_label headers repo name color desc w)).
Proof.
  eapply Forall_impl; [|apply ensure_label_calls]. cbv beta.
  intros ev [H|[H|H]]; subst ev; unfold row_call; auto using api_call.
Qed.

Lemma main_row_calls (fuel : nat) (args : Args) (idx : Z) (r : Series)
    (w : World) :
  Forall (row_call headers repo) (events (main_row fuel headers repo args idx r w)).
Proof.
  unfold main_row.
  destruct (negb _ || negb _); [apply ret_events|].
  apply bind_events.
  { unfold ensure_dyn. apply for_each_events. intros [name color] w1.
    destruct (not_ensured name);
      [apply ret_events | apply ensure_label_row_calls]. }
  intros _ w1. apply bind_events.
  { eapply Forall_impl; [|apply find_issue_loop_calls]. cbv beta.
    intros ev [H|(p & _ & H)]; subst ev; unfold row_call;
      auto using api_call. }
  intros [it|] w2; [apply ret_events|].
  destruct (dry_run args); [apply ret_events|].
  apply try_except_events; [|intros; apply ret_events].
  apply bind_events.
  { eapply Forall_impl; [|apply gh_calls]. cbv beta.
    intros ev [H|H]; subst ev; unfold row_call; auto.
    right. right. apply api_issue_creation. }
  intros r1 w3. apply bind_events; [apply created_url_events|].
  intros url w4. apply bind_events; [|intros; apply ret_events].
  unfold sleep, emit, events. cbn [snd].
  apply Forall_cons; [|apply Forall_nil]. unfold row_call. auto.
Qed.

Lemma main_rows_calls (fuel : nat) (args : Args) (l : list (Z * Series))
    (report_rows : list ReportRow) (w : World) :
  Forall (row_call headers repo) (events (main_rows fuel headers repo args l report_rows w)).
Proof.
  revert report_rows w.
  induction l as [|[idx r] l IH]; intros report_rows w; cbn [main_rows].
  - apply ret_events.
  - apply bind_events; [apply main_row_calls | intros; apply IH].
Qed.

Lemma ensure_base_labels_calls (w : World) :
  Forall (row_call headers repo) (events (ensure_base_labels headers repo w)).
Proof.
  unfold ensure_base_labels. apply for_each_events.
  intros [[name color] desc] w1. apply ensure_label_row_calls.
Qed.

(** X8.  Whatever the tracker answers, the look-up only reads: besides
    the pause of a retry, its calls are GET requests for the issues of the
    repository in any state that carry the label [seed:<seed id>], fifty a
    page, for pages from 1 up to the fuel it has. *)
Theorem find_issue_by_seed_only_lists (fuel : nat) (seed_uid : string)
    (w : World) :
  Forall (fun ev =>
            ev = Sleep 5000
            \/ exists page, 1 <= page <= Z.of_nat fuel
                            /\ ev = issue_listing headers repo
                                      ("seed:" +++ seed_uid) page)
    (events (find_issue_by_seed fuel headers repo seed_uid w)).
Proof.
  unfold find_issue_by_seed.
  eapply Forall_impl; [|apply find_issue_loop_calls]. cbv beta.
  intros ev [H|(p & Hp & H)]; [left; exact H | right].
  exists p. split; [lia | exact H].
Qed.

Lemma gh_reads (path : string) (kwargs : Kwargs) (w : World) :
  Forall (fun ev => is_mutating ev = false)
    (events (gh headers "GET" path kwargs w)).
Proof.
  eapply Forall_impl; [|apply gh_calls]. cbv beta.
  intros ev [H|H]; subst ev; reflexivity.
Qed.

Lemma ensure_label_run (name color : string) (desc : option string)
    (w : World) :
  ensure_label headers repo name color desc w =
  match gh headers "GET" ("/repos/" +++ repo +++ "/labels/" +++ name) [] w with
  | (Return _, w1, t) => (Return tt, w1, t)
  | (Raise e, w1, t) =>
      match e with
      | HTTPError _ r =>
          if status_code r =? 404
          then
            let '(o, w2, t2) :=
              (gh headers "POST" ("/repos/" +++ repo +++ "/labels")
                 [("json", label_payload name color desc)] ;;
               ret tt) w1 in
            (o, w2, t ++ t2)
          else (Raise e, w1, t)
      | _ => (Raise e, w1, t)
      end
  | (OutOfFuel, w1, t) => (OutOfFuel, w1, t)
  end.
Proof.
  unfold ensure_label, try_except, bind at 1.
  destruct (gh headers "GET" _ [] w) as [[[r|e|] w1] t]; cbv [ret];
    rewrite ?app_nil_r; try reflexivity.
  destruct e as [msg r| | | |]; cbn [is_HTTPError]; try reflexivity.
  destruct (status_code r =? 404).
  - unfold label_payload.
    destruct desc as [d|]; [destruct (truthy d)|]; rewrite ?app_nil_r;
      reflexivity.
  - cbv [raise]. rewrite app_nil_r. reflexivity.
Qed.

(** X6.  [ensure_label] is a check followed, only when the check ends in
    a 404, by a creation.  When the check returns, the label is there and
    nothing else is done; an exception of the check that is not an
    [HTTPError] of status 404 is raised again as it is; and a POST in the
    calls of [ensure_label] means that the check ended in a 404. *)
Theorem ensure_label_creates_only_after_404 (name color : string)
    (desc : option string) (w : World) :
  let check :=
    gh headers "GET" ("/repos/" +++ repo +++ "/labels/" +++ name) [] w in
  let run := ensure_label headers repo name color desc w in
  (forall r w1 t, check = (Return r, w1, t) -> run = (Return tt, w1, t))
  /\ (forall e w1 t,
        check = (Raise e, w1, t) ->
        (forall msg r, e = HTTPError msg r -> status_code r <> 404) ->
        run = (Raise e, w1, t))
  /\ (forall ev,
        In ev (events run) -> is_mutating ev = true ->
        exists msg r w1 t,
          check = (Raise (HTTPError msg r), w1, t) /\ status_code r = 404).
Proof.
  cbv zeta. rewrite ensure_label_run.
  pose proof (gh_reads ("/repos/" +++ repo +++ "/labels/" +++ name) [] w)
    as Hreads.
  destruct (gh headers "GET" _ [] w) as [[[r|e|] w1] t];
    unfold events in Hreads |- *; cbn [snd] in Hreads |- *;
    rewrite Forall_forall in Hreads.
  - split; [|split].
    + intros r' w1' t' [= <- <- <-]. reflexivity.
    + discriminate.
    + intros ev Hin Hmut. rewrite (Hreads ev Hin) in Hmut. discriminate.
  - split; [|split].
    + discriminate.
    + intros e' w1' t' [= <- <- <-] Hnot.
      destruct e as [msg r| | | |]; try reflexivity.
      destruct (Z.eqb_spec (status_code r) 404) as [H404|_]; [|reflexivity].
      destruct (Hnot msg r eq_refl H404).
    + intros ev Hin Hmut.
      destruct e as [msg r| | | |];
        try (rewrite (Hreads ev Hin) in Hmut; discriminate).
      destruct (Z.eqb_spec (status_code r) 404) as [H404|_].
      * exists msg, r, w1, t. auto.
      * cbn [snd] in Hin. rewrite (Hreads ev Hin) in Hmut. discriminate.
  - split; [|split]; try discriminate.
    intros ev Hin Hmut. rewrite (Hreads ev Hin) in Hmut. discriminate.
Qed.

(** X9.  A response that [gh] returns never has a status from 400 to 599,
    and the last call of [gh] is then the request it was answered to. *)
Theorem gh_returns_only_successes (method path : string) (kwargs : Kwargs)
    (w w' : World) (r : Response) (t : list Event) :
  gh headers method path kwargs w = (Return r, w', t) ->
  is_error_status r = false
  /\ last t (Sleep 0) = Request method (GH_API +++ path) headers kwargs.
Proof.
  rewrite gh_run. cbv zeta. unfold is_error_status.
  destruct (requests_request method _ headers kwargs w) as [[r1|e1] w1];
    [|discriminate].
  destruct (rate_limited r1).
  - destruct (requests_request method _ headers kwargs w1) as [[r2|e2] w2];
      [|discriminate].
    destruct (_ && _) eqn:Hstatus; [discriminate|].
    intros [= <- _ <-]. auto.
  - destruct (_ && _) eqn:Hstatus; [discriminate|].
    intros [= <- _ <-]. auto.
Qed.

Lemma gh_returns_only_successes_aux (method path : string)
    (kwargs : Kwargs) (w w' : World) (r : Response) (t : list Event) :
  gh headers method path kwargs w = (Return r, w', t) ->
  is_error_status r = false
  /\ In (Request method (GH_API +++ path) headers kwargs) t.
Proof.
  rewrite gh_run. cbv zeta. unfold is_error_status.
  destruct (requests_request method _ headers kwargs w) as [[r1|e1] w1];
    [|discriminate].
  destruct (rate_limited r1).
  - destruct (requests_request method _ headers kwargs w1) as [[r2|e2] w2];
      [|discriminate].
    destruct (_ && _) eqn:Hstatus; [discriminate|].
    intros [= <- _ <-]. split; [exact Hstatus | left; reflexivity].
  - destruct (_ && _) eqn:Hstatus; [discriminate|].
    intros [= <- _ <-]. split; [exact Hstatus | left; reflexivity].
Qed.

Lemma gh_not_out_of_fuel (method path : string) (kwargs : Kwargs)
    (w w' : World) (t : list Event) :
  gh headers method path kwargs w <> (OutOfFuel, w', t).
Proof.
  rewrite gh_run. cbv zeta.
  destruct (requests_request method _ headers kwargs w) as [[r1|e1] w1];
    [|discriminate].
  destruct (rate_limited r1).
  - destruct (requests_request method _ headers kwargs w1) as [[r2|e2] w2];
      [destruct (_ && _)|]; discriminate.
  - destruct (_ && _); discriminate.
Qed.

End Surface.

(** *** The rows, case by case *)

Lemma str_decode_error_nonempty (e : DecodeError) : str_decode_error e <> "".
Proof.
  unfold str_decode_error. destruct (decode_msg e); discriminate.
Qed.

Section Rows.

Context {World : Type} {net : Network World}.
Variable fuel : nat.
Variable headers : Headers.
Variable repo : string.
Variable args : Args.
Variable idx : Z.
Variable r : Series.

(** What the row [(idx, r)] does, by the outcomes of its phases. *)
Lemma main_row_run (w : World) :
  main_row fuel headers repo args idx r w =
  if negb (truthy (seed_uid_of r)) || negb (truthy (titulo_of r))
  then (Return (mkReportRow "skip" (idx + 1) (titulo_of r) ""
                  "missing uid/title" ""), w, [])
  else
    match ensure_dyn headers repo (dyn r (seed_uid_of r)) w with
    | (Return _, w1, t1) =>
        match find_issue_by_seed fuel headers repo (seed_uid_of r) w1 with
        | (Return (Some existing), w2, t2) =>
            (Return (mkReportRow "exists" (idx + 1) (titulo_of r)
                       (html_url existing) ("seed:" +++ seed_uid_of r) ""),
             w2, t1 ++ t2)
        | (Return None, w2, t2) =>
            if dry_run args
            then (Return (mkReportRow "dry-run" (idx + 1) (titulo_of r)
                            "" "" ""), w2, t1 ++ t2)
            else
              let failed e :=
                Return (mkReportRow "error" (idx + 1) (titulo_of r) "" ""
                          (str_exception e)) in
              match gh headers "POST" ("/repos/" +++ repo +++ "/issues")
                      [("json", issue_payload (titulo_of r) (build_body r)
                                  (dyn r (seed_uid_of r)))] w2 with
              | (Return resp, w3, t3) =>
                  match json resp with
                  | Some (JObject fields) =>
                      (Return (mkReportRow "created" (idx + 1) (titulo_of r)
                                 match assoc "html_url" fields with
                                 | Some u => u
                                 | None => ""
                                 end
                                 ("seed:" +++ seed_uid_of r) ""),
                       w3, t1 ++ t2 ++ t3 ++ [Sleep 300])
                  | Some (JArray _) =>
                      (failed (AttributeError
                                 "'list' object has no attribute 'get'"),
                       w3, t1 ++ t2 ++ t3)
                  | None =>
                      (failed (JSONDecodeError
                                 (str_decode_error (json_error resp))),
                       w3, t1 ++ t2 ++ t3)
                  end
              | (Raise e, w3, t3) =>
                  if is_Exception e
                  then (failed e, w3, t1 ++ t2 ++ t3)
                  else (Raise e, w3, t1 ++ t2 ++ t3)
              | (OutOfFuel, w3, t3) => (OutOfFuel, w3, t1 ++ t2 ++ t3)
              end
        | (Raise e, w2, t2) => (Raise e, w2, t1 ++ t2)
        | (OutOfFuel, w2, t2) => (OutOfFuel, w2, t1 ++ t2)
        end
    | (Raise e, w1, t1) => (Raise e, w1, t1)
    | (OutOfFuel, w1, t1) => (OutOfFuel, w1, t1)
    end.
Proof.
  unfold main_row. fold (seed_uid_of r) (titulo_of r).
  destruct (negb _ || negb _); [reflexivity|].
  unfold bind at 1.
  destruct (ensure_dyn headers repo _ w) as [[[[]|e|] w1] t1];
    try reflexivity.
  unfold bind at 1.
  destruct (find_issue_by_seed fuel headers repo _ w1)
    as [[[[existing|]|e|] w2] t2]; try reflexivity.
  - cbv [ret]. rewrite app_nil_r. reflexivity.
  - destruct (dry_run args).
    + cbv [ret]. rewrite app_nil_r. reflexivity.
    + unfold try_except, bind at 1.
      destruct (gh headers "POST" _ _ w2) as [[[resp|e|] w3] t3].
      * unfold created_url, json_of, bind at 1.
        destruct (json resp) as [[items|fields]|];
          cbv [bind ret raise sleep emit is_Exception];
          rewrite ?app_nil_r, ?app_nil_l; reflexivity.
      * destruct (is_Exception e); cbv [ret]; rewrite ?app_nil_r;
          reflexivity.
      * reflexivity.
Qed.

(** X10.  When the create-issue call of a row returns an object, the
    record of the row is [created] with the [html_url] of the object, or
    no URL when the object has none, and the seed label as reason; the
    row then pauses for 0.3 s, and that pause is the last thing it does. *)
Theorem creation_success_is_reported (resp : Response)
    (fields : list (string * string)) (w w1 w2 w3 : World)
    (t1 t2 t3 : list Event) :
  seed_uid_of r <> "" ->
  titulo_of r <> "" ->
  dry_run args = false ->
  ensure_dyn headers repo (dyn r (seed_uid_of r)) w = (Return tt, w1, t1) ->
  find_issue_by_seed fuel headers repo (seed_uid_of r) w1
    = (Return None, w2, t2) ->
  gh headers "POST" ("/repos/" +++ repo +++ "/issues")
    [("json", issue_payload (titulo_of r) (build_body r)
                (dyn r (seed_uid_of r)))] w2
    = (Return resp, w3, t3) ->
  json resp = Some (JObject fields) ->
  main_row fuel headers repo args idx r w =
  (Return (mkReportRow "created" (idx + 1) (titulo_of r)
             match assoc "html_url" fields with
             | Some u => u
             | None => ""
             end
             ("seed:" +++ seed_uid_of r) ""),
   w3, t1 ++ t2 ++ t3 ++ [Sleep 300]).
Proof.
  intros Hs Ht Hdry Hensure Hfind Hpost Hjson.
  rewrite main_row_run, (row_is_valid r Hs Ht), Hensure, Hfind, Hdry, Hpost,
    Hjson.
  reflexivity.
Qed.

(** X12.  When the create-issue call of a row returns but its body cannot
    be read as an object (it is not JSON, or it is an array), the record
    of the row is [error] with the message of that failure, although the
    call was made and answered without an error status; the row does not
    pause. *)
Theorem unreadable_creation_answer_is_an_error (resp : Response)
    (w w1 w2 w3 : World) (t1 t2 t3 : list Event) :
  seed_uid_of r <> "" ->
  titulo_of r <> "" ->
  dry_run args = false ->
  ensure_dyn headers repo (dyn r (seed_uid_of r)) w = (Return tt, w1, t1) ->
  find_issue_by_seed fuel headers repo (seed_uid_of r) w1
    = (Return None, w2, t2) ->
  gh headers "POST" ("/repos/" +++ repo +++ "/issues")
    [("json", issue_payload (titulo_of r) (build_body r)
                (dyn r (seed_uid_of r)))] w2
    = (Return resp, w3, t3) ->
  (forall fields, json resp <> Some (JObject fields)) ->
  exists msg,
    main_row fuel headers repo args idx r w =
    (Return (mkReportRow "error" (idx + 1) (titulo_of r) "" "" msg),
     w3, t1 ++ t2 ++ t3)
    /\ msg <> ""
    /\ is_error_status resp = false
    /\ In (issue_creation headers repo
             (issue_payload (titulo_of r) (build_body r)
                (dyn r (seed_uid_of r)))) t3.
Proof.
  intros Hs Ht Hdry Hensure Hfind Hpost Hjson.
  rewrite main_row_run, (row_is_valid r Hs Ht), Hensure, Hfind, Hdry, Hpost.
  destruct (gh_returns_only_successes_aux headers _ _ _ _ _ _ _ Hpost)
    as (Hstatus & Hcall).
  destruct (json resp) as [[items|fields]|].
  - eexists. split; [reflexivity|]. split; [discriminate|].
    split; assumption.
  - destruct (Hjson fields eq_refl).
  - eexists. split; [reflexivity|].
    split; [apply str_decode_error_nonempty|].
    split; assumption.
Qed.

Lemma creations_app (t t' : list Event) :
  creations repo (t ++ t') = (creations repo t + creations repo t')%nat.
Proof. unfold creations. rewrite filter_app. apply length_app. Qed.

Lemma creations_none (t : list Event) :
  creates_no_issue repo t -> creations repo t = 0%nat.
Proof.
  unfold creates_no_issue, creations.
  induction 1 as [|ev t Hev _ IH]; cbn [filter]; [reflexivity|].
  rewrite Hev. exact IH.
Qed.

Lemma creations_gh (method path : string) (kwargs : Kwargs) (w : World) :
  (creations repo (events (gh headers method path kwargs w)) <= 2)%nat.
Proof.
  rewrite gh_run. cbv zeta. unfold creations.
  set (call := Request method (GH_API +++ path) headers kwargs).
  destruct (requests_request method _ headers kwargs w) as [[r1|e1] w1].
  - destruct (rate_limited r1).
    + destruct (requests_request method _ headers kwargs w1) as [[r2|e2] w2];
        [destruct (_ && _)|]; unfold events; cbn [snd filter];
        destruct (is_create_issue repo call); cbn; lia.
    + destruct (_ && _); unfold events; cbn [snd filter];
        destruct (is_create_issue repo call); cbn; lia.
  - unfold events; cbn [snd filter];
      destruct (is_create_issue repo call); cbn; lia.
Qed.

Lemma row_phases_create_no_issue (w : World) :
  creates_no_issue repo
    (events (ensure_dyn headers repo (dyn r (seed_uid_of r)) w))
  /\ creates_no_issue repo
       (events (find_issue_by_seed fuel headers repo (seed_uid_of r) w)).
Proof.
  destruct (phases_create_no_issue repo) as (Psleep & Pget & Plabel).
  split.
  - apply ensure_dyn_events; assumption.
  - apply find_issue_by_seed_events; assumption.
Qed.

(** X14.  Whatever the tracker answers, a row makes the create-issue call
    at most twice: once, and once more after a rate-limit answer. *)
Theorem at_most_two_creation_calls_per_row (w : World) :
  (creations repo (events (main_row fuel headers repo args idx r w)) <= 2)%nat.
Proof.
  rewrite main_row_run.
  destruct (negb _ || negb _); [cbn; lia|].
  destruct (row_phases_create_no_issue w) as [Hensure _].
  destruct (ensure_dyn headers repo _ w) as [[o1 w1] t1].
  unfold events in Hensure. cbn [snd] in Hensure.
  apply creations_none in Hensure.
  destruct (row_phases_create_no_issue w1) as [_ Hfind].
  destruct o1 as [[]|e|];
    try (unfold events; cbn [snd]; rewrite Hensure; lia).
  destruct (find_issue_by_seed fuel headers repo _ w1) as [[o2 w2] t2].
  unfold events in Hfind. cbn [snd] in Hfind.
  apply creations_none in Hfind.
  destruct o2 as [[existing|]|e|];
    try (unfold events; cbn [snd]; rewrite creations_app, Hensure, Hfind;
         lia).
  destruct (dry_run args);
    [unfold events; cbn [snd]; rewrite creations_app, Hensure, Hfind; lia|].
  cbv zeta.
  match goal with
  | |- context [gh headers "POST" ?p ?k w2] =>
      pose proof (creations_gh "POST" p k w2) as Hpost;
      destruct (gh headers "POST" p k w2) as [[[resp|e|] w3] t3]
  end; unfold events in Hpost; cbn [snd] in Hpost.
  - destruct (json resp) as [[items|fields]|]; unfold events; cbn [snd];
      rewrite !creations_app, Hensure, Hfind; cbn [creations filter
        is_create_issue List.length]; lia.
  - destruct (is_Exception e); unfold events; cbn [snd];
      rewrite !creations_app, Hensure, Hfind; lia.
  - unfold events; cbn [snd]; rewrite !creations_app, Hensure, Hfind; lia.
Qed.

(** X13.  Every attempt to create an issue is accounted for: a row whose
    calls include the create-issue call returns a record, [created] or
    [error].  (The one way out is a [SystemExit] raised inside the call,
    which [except Exception] does not catch.) *)
Theorem every_creation_attempt_is_reported (w : World) (ev : Event) :
  In ev (events (main_row fuel headers repo args idx r w)) ->
  is_create_issue repo ev = true ->
  (exists rec,
     outcome (main_row fuel headers repo args idx r w) = Return rec
     /\ (status rec = "created" \/ status rec = "error"))
  \/ (exists code,
        outcome (main_row fuel headers repo args idx r w)
        = Raise (SystemExit code)).
Proof.
  rewrite main_row_run. intros Hin Hcreate.
  assert (Hno : forall t, creates_no_issue repo t -> In ev t -> False).
  { intros t Ht Hev. unfold creates_no_issue in Ht.
    rewrite Forall_forall in Ht. rewrite (Ht ev Hev) in Hcreate.
    discriminate. }
  destruct (negb _ || negb _); [destruct Hin|].
  destruct (row_phases_create_no_issue w) as [Hensure _].
  destruct (ensure_dyn headers repo _ w) as [[o1 w1] t1].
  unfold events in Hensure. cbn [snd] in Hensure.
  destruct (row_phases_create_no_issue w1) as [_ Hfind].
  destruct o1 as [[]|e|]; try (destruct (Hno t1 Hensure Hin)).
  destruct (find_issue_by_seed fuel headers repo _ w1) as [[o2 w2] t2].
  unfold events in Hfind. cbn [snd] in Hfind.
  assert (Hboth : creates_no_issue repo (t1 ++ t2))
    by (apply Forall_app; split; assumption).
  destruct o2 as [[existing|]|e|]; try (destruct (Hno _ Hboth Hin)).
  destruct (dry_run args); [destruct (Hno _ Hboth Hin)|].
  cbv zeta in Hin |- *.
  match goal with
  | |- context [gh headers "POST" ?p ?k w2] =>
      pose proof (gh_not_out_of_fuel headers "POST" p k w2) as Hfuel;
      destruct (gh headers "POST" p k w2) as [[[resp|e|] w3] t3]
  end.
  - left. destruct (json resp) as [[items|fields]|]; eexists;
      (split; [reflexivity|]); cbn [status]; auto.
  - destruct e as [msg resp| | | |code]; cbn [is_Exception];
      try (left; eexists; split; [reflexivity|]; cbn [status]; auto).
    right. exists code. reflexivity.
  - destruct (Hfuel w3 t3 eq_refl).
Qed.

End Rows.

(** *** The run and its calls *)

(** X5.  Whatever the tracker answers, a run does nothing but: the four
    calls of the API (check a label, create a label, list the issues of a
    seed label, create an issue), each with the headers and on the
    repository the environment gives; pauses of 5 s and of 0.3 s; lines on
    stdout or stderr; and the report [seed-report.csv] with its header. *)
Theorem run_makes_only_api_calls {World : Type} {net : Network World}
    (fuel : nat) (args : Args) (environ : list (string * string))
    (xl : list (string * DataFrame)) (w : World) :
  Forall (fun ev =>
            row_call (headers_of environ) (repo_of environ) ev
            \/ (exists stream msg, ev = PrintLine stream msg)
            \/ (exists report,
                  ev = CsvFile "seed-report.csv" report_header report))
    (events (main fuel args environ xl w)).
Proof.
  destruct (startup_ok environ xl) eqn:Hok.
  - rewrite (main_run fuel args environ xl Hok).
    apply bind_events.
    { eapply Forall_impl; [|apply ensure_base_labels_calls]. cbv beta. auto. }
    intros _ w1. apply bind_events.
    { eapply Forall_impl; [|apply main_rows_calls]. cbv beta. auto. }
    intros report w2. apply bind_events.
    { unfold emit, events. cbn [snd]. apply Forall_cons; [|apply Forall_nil].
      right. right. exists report. reflexivity. }
    intros _ w3. unfold print, emit, events. cbn [snd].
    apply Forall_cons; [|apply Forall_nil]. right. left. eauto.
  - unfold startup_ok in Hok. unfold main.
    destruct (falsy _ || falsy _).
    + unfold events. cbn. apply Forall_cons; [|apply Forall_nil].
      right. left. eauto.
    + destruct (read_frames xl); [|discriminate].
      unfold events. cbn. apply Forall_cons; [|apply Forall_nil].
      right. left. eauto.
Qed.

(** *** The workbook *)

Lemma assoc_columns (f : string -> Cell) (cols : list string) (c : string) :
  assoc c (map (fun c' => (c', f c')) cols)
  = if existsb (String.eqb c) cols then Some (f c) else None.
Proof.
  induction cols as [|c' cols IH]; cbn [map assoc existsb]; [reflexivity|].
  destruct (String.eqb_spec c c') as [->|_]; [reflexivity | exact IH].
Qed.

Lemma assoc_set (c : string) (v : Cell) (row : Series) :
  assoc c (filter (fun kv => negb (String.eqb (fst kv) c)) row ++ [(c, v)])
  = Some v.
Proof.
  induction row as [|[k x] row IH]; cbn [filter app assoc fst].
  - rewrite String.eqb_refl. reflexivity.
  - destruct (String.eqb_spec k c) as [->|Hk]; cbn [negb]; [exact IH|].
    cbn [app assoc]. destruct (String.eqb_spec c k) as [->|_];
      [contradiction | exact IH].
Qed.

Lemma assoc_set_other (c c' : string) (v : Cell) (row : Series) :
  c <> c' ->
  assoc c (filter (fun kv => negb (String.eqb (fst kv) c')) row ++ [(c', v)])
  = assoc c row.
Proof.
  intros Hc. induction row as [|[k x] row IH]; cbn [filter app assoc fst].
  - destruct (String.eqb_spec c c'); [contradiction | reflexivity].
  - destruct (String.eqb_spec k c') as [->|Hk]; cbn [negb].
    + destruct (String.eqb_spec c c'); [contradiction | exact IH].
    + cbn [app assoc]. rewrite IH. reflexivity.
Qed.

Lemma has_column_set (c c' : string) (v : Cell) (df : DataFrame) :
  has_column (set_column c' v df) c = has_column df c || String.eqb c c'.
Proof.
  unfold has_column at 1, set_column. cbn [columns].
  destruct (has_column df c') eqn:Hc'.
  - fold (has_column df c).
    destruct (String.eqb_spec c c') as [->|_];
      [rewrite Hc'; reflexivity | rewrite orb_false_r; reflexivity].
  - rewrite existsb_app. cbn [existsb]. rewrite orb_false_r. reflexivity.
Qed.

Lemma normalize_step_has (c c' : string) (df : DataFrame) :
  has_column df c = true -> has_column (normalize_step df c') c = true.
Proof.
  intros H. unfold normalize_step.
  destruct (has_column df c'); [exact H|].
  rewrite has_column_set, H. reflexivity.
Qed.

Lemma normalize_step_blank (c c' : string) (df : DataFrame) :
  blank_column c df -> blank_column c (normalize_step df c').
Proof.
  intros [Hhas Hrows]. unfold normalize_step.
  destruct (has_column df c') eqn:Hc'; [split; assumption|].
  assert (Hne : c <> c') by (intros ->; congruence).
  split.
  - rewrite has_column_set, Hhas. reflexivity.
  - intros row Hin. unfold set_column in Hin. cbn [rows] in Hin.
    apply in_map_iff in Hin. destruct Hin as (row0 & <- & Hin0).
    unfold get. rewrite (assoc_set_other c c' _ row0 Hne).
    apply Hrows, Hin0.
Qed.

Lemma normalize_step_adds (c : string) (df : DataFrame) :
  has_column df c = false -> blank_column c (normalize_step df c).
Proof.
  intros H. unfold normalize_step. rewrite H. split.
  - rewrite has_column_set, String.eqb_refl. apply orb_true_r.
  - intros row Hin. unfold set_column in Hin. cbn [rows] in Hin.
    apply in_map_iff in Hin. destruct Hin as (row0 & <- & _).
    apply assoc_set.
Qed.

Lemma normalize_fold_has (cs : list string) (c : string) (df : DataFrame) :
  has_column df c = true ->
  has_column (fold_left normalize_step cs df) c = true.
Proof.
  revert df. induction cs as [|c' cs IH]; intros df H; cbn [fold_left].
  - exact H.
  - apply IH, normalize_step_has, H.
Qed.

Lemma normalize_fold_blank (cs : list string) (c : string) (df : DataFrame) :
  blank_column c df -> blank_column c (fold_left normalize_step cs df).
Proof.
  revert df. induction cs as [|c' cs IH]; intros df H; cbn [fold_left].
  - exact H.
  - apply IH, normalize_step_blank, H.
Qed.

Lemma normalize_fold_adds (cs : list string) (c : string) (df : DataFrame) :
  In c cs ->
  has_column (fold_left normalize_step cs df) c = true
  /\ (has_column df c = false ->
      blank_column c (fold_left normalize_step cs df)).
Proof.
  revert df. induction cs as [|c' cs IH]; intros df Hin; [destruct Hin|].
  cbn [fold_left].
  destruct (String.eqb_spec c c') as [<-|Hne].
  - destruct (has_column df c) eqn:Hc.
    + split; [|discriminate].
      apply normalize_fold_has, normalize_step_has, Hc.
    + pose proof (normalize_fold_blank cs c _ (normalize_step_adds c df Hc))
        as Hblank.
      split; [apply Hblank | intros _; exact Hblank].
  - destruct Hin as [->|Hin]; [contradiction|].
    destruct (IH (normalize_step df c') Hin) as [Hhas Hblank].
    split; [exact Hhas|]. intros Hc. apply Hblank.
    unfold normalize_step. destruct (has_column df c'); [exact Hc|].
    rewrite has_column_set, Hc. apply String.eqb_neq in Hne. rewrite Hne.
    reflexivity.
Qed.

Lemma union_columns (l acc : list string) (c : string) :
  existsb (String.eqb c)
    (fold_left (fun cs c' => if existsb (String.eqb c') cs then cs
                             else cs ++ [c']) l acc)
  = existsb (String.eqb c) acc || existsb (String.eqb c) l.
Proof.
  revert acc. induction l as [|c' l IH]; intros acc; cbn [fold_left existsb].
  - rewrite orb_false_r. reflexivity.
  - rewrite IH. destruct (existsb (String.eqb c') acc) eqn:Hc'.
    + destruct (String.eqb_spec c c') as [->|_]; [|reflexivity].
      rewrite Hc'. reflexivity.
    + rewrite existsb_app. cbn [existsb]. rewrite orb_false_r, orb_assoc.
      reflexivity.
Qed.

(** A column no sheet has, other than [__sheet__], is not in the
    concatenation. *)
Lemma concat_lacks_column (xl : list (string * DataFrame)) (c : string) :
  c <> "__sheet__" ->
  (forall sdf, In sdf xl -> has_column (snd sdf) c = false) ->
  has_column (concat_frames (read_frames xl)) c = false.
Proof.
  intros Hc Hxl. unfold has_column at 1, concat_frames. cbn [columns].
  rewrite union_columns. cbn [existsb orb].
  induction xl as [|[s df] xl IH]; [reflexivity|].
  unfold read_frames. cbn [flat_map]. rewrite map_app, concat_app, existsb_app.
  fold (read_frames xl). rewrite IH by (intros sdf H; apply Hxl; right; exact H).
  rewrite orb_false_r.
  destruct (List.length (columns df) =? 0)%nat; [reflexivity|].
  cbn [map concat]. rewrite app_nil_r.
  change (has_column (set_column "__sheet__" (Str s) df) c = false).
  pose proof (Hxl (s, df) (or_introl eq_refl)) as Hdf. cbn [snd] in Hdf.
  rewrite has_column_set, Hdf.
  apply String.eqb_neq in Hc. rewrite Hc. reflexivity.
Qed.

(** A row the loop goes through is a row of the normalised frame, with
    the empty string where that row has no cell. *)
Lemma loaded_row (xl : list (string * DataFrame)) (row : Series) :
  In row (loaded_rows_of xl) ->
  exists row0,
    In row0 (rows (fold_left normalize_step expected_columns
                     (concat_frames (read_frames xl))))
    /\ forall c,
         get row c
         = if has_column (fold_left normalize_step expected_columns
                            (concat_frames (read_frames xl))) c
           then Some match get row0 c with
                     | Some v => v
                     | None => Str ""
                     end
           else None.
Proof.
  unfold loaded_rows_of, fillna. cbn [rows]. intros Hin.
  apply in_map_iff in Hin. destruct Hin as (row0 & <- & Hin0).
  exists row0. split; [exact Hin0|]. intros c.
  unfold get at 1. rewrite assoc_columns. reflexivity.
Qed.

Lemma expected_is_not_sheet (c : string) :
  In c expected_columns -> c <> "__sheet__".
Proof.
  intros Hc ->. repeat (destruct Hc as [Hc|Hc]; [discriminate|]).
  destruct Hc.
Qed.

(** X17.  Every row the loop goes through has a cell for each of the
    eight expected columns, and for a column that no sheet of the workbook
    has, the cell is the empty string: a missing column reads as empty
    cells, never as [None]. *)
Theorem missing_columns_read_as_empty (xl : list (string * DataFrame))
    (row : Series) (c : string) :
  In row (loaded_rows_of xl) ->
  In c expected_columns ->
  (exists v, get row c = Some v)
  /\ ((forall sdf, In sdf xl -> has_column (snd sdf) c = false) ->
      get row c = Some (Str "")).
Proof.
  intros Hin Hc.
  destruct (loaded_row xl row Hin) as (row0 & Hin0 & Hget).
  destruct (normalize_fold_adds expected_columns c
              (concat_frames (read_frames xl)) Hc) as [Hhas Hblank].
  rewrite (Hget c), Hhas. split; [eauto|].
  intros Hxl.
  destruct (Hblank (concat_lacks_column xl c (expected_is_not_sheet c Hc) Hxl))
    as [_ Hrows].
  rewrite (Hrows row0 Hin0). reflexivity.
Qed.

(** X18.  In a workbook where no sheet has the column "Issue UID", or
    none has the column "Tarefa", every row is skipped without a call. *)
Theorem workbook_without_key_column_is_skipped {World : Type}
    {net : Network World} (fuel : nat) (headers : Headers) (repo : string)
    (args : Args) (idx : Z) (xl : list (string * DataFrame)) (row : Series)
    (c : string) (w : World) :
  c = "Issue UID" \/ c = "Tarefa" ->
  (forall sdf, In sdf xl -> has_column (snd sdf) c = false) ->
  In row (loaded_rows_of xl) ->
  main_row fuel headers repo args idx row w =
  (Return (mkReportRow "skip" (idx + 1) (titulo_of row) ""
             "missing uid/title" ""), w, []).
Proof.
  intros Hc Hxl Hin. rewrite main_row_run.
  assert (Hexp : In c expected_columns).
  { destruct Hc as [-> | ->]; cbn; tauto. }
  destruct (loaded_row xl row Hin) as (row0 & Hin0 & Hget).
  destruct (normalize_fold_adds expected_columns c
              (concat_frames (read_frames xl)) Hexp) as [Hhas Hblank].
  destruct (Hblank (concat_lacks_column xl c (expected_is_not_sheet c Hexp)
                      Hxl)) as [_ Hrows].
  assert (Hcell : get row c = Some (Str "")).
  { rewrite (Hget c), Hhas, (Hrows row0 Hin0). reflexivity. }
  assert (Hblank' : negb (truthy (seed_uid_of row))
                    || negb (truthy (titulo_of row)) = true).
  { unfold seed_uid_of, titulo_of.
    destruct Hc as [-> | ->]; rewrite Hcell; cbn [or_empty bool_cell truthy];
      [reflexivity | apply orb_true_r]. }
  rewrite Hblank'. reflexivity.
Qed.

(** *** The records of the report *)

Lemma truthy_true (s : string) : truthy s = true -> s <> "".
Proof.
  unfold truthy. intros H ->. discriminate H.
Qed.

Lemma row_not_blank (row : Series) :
  negb (truthy (seed_uid_of row)) || negb (truthy (titulo_of row)) = false ->
  seed_uid_of row <> "" /\ titulo_of row <> "".
Proof.
  intros H. apply orb_false_iff in H. destruct H as [Hs Ht].
  apply negb_false_iff in Hs, Ht. split; apply truthy_true; assumption.
Qed.

Lemma row_blank (row : Series) :
  negb (truthy (seed_uid_of row)) || negb (truthy (titulo_of row)) = true ->
  seed_uid_of row = "" \/ titulo_of row = "".
Proof.
  intros H. apply orb_true_iff in H. unfold truthy in H.
  destruct H as [H|H]; apply negb_true_iff, negb_false_iff, String.eqb_eq in H;
    auto.
Qed.

(** X19.  The record of a row has the number and the trimmed title of the
    row and exactly one of five shapes: [skip], for a row without seed id
    or title and only for such a row; [exists] with the seed label as
    reason; [dry-run], only with the flag and with nothing else filled in;
    [created] with the seed label as reason, only without the flag;
    [error] with nothing but the message, only without the flag. *)
Theorem record_of_a_row {World : Type} {net : Network World} (fuel : nat)
    (headers : Headers) (repo : string) (args : Args) (idx : Z) (r : Series)
    (w w' : World) (rec : ReportRow) (t : list Event) :
  main_row fuel headers repo args idx r w = (Return rec, w', t) ->
  row rec = idx + 1
  /\ task rec = titulo_of r
  /\ ((status rec = "skip"
       /\ (seed_uid_of r = "" \/ titulo_of r = "")
       /\ issue rec = "" /\ reason rec = "missing uid/title"
       /\ error rec = "")
      \/ (seed_uid_of r <> "" /\ titulo_of r <> ""
          /\ ((status rec = "exists"
               /\ reason rec = "seed:" +++ seed_uid_of r /\ error rec = "")
              \/ (status rec = "dry-run" /\ dry_run args = true
                  /\ issue rec = "" /\ reason rec = "" /\ error rec = "")
              \/ (status rec = "created" /\ dry_run args = false
                  /\ reason rec = "seed:" +++ seed_uid_of r
                  /\ error rec = "")
              \/ (status rec = "error" /\ dry_run args = false
                  /\ issue rec = "" /\ reason rec = "")))).
Proof.
  rewrite main_row_run.
  destruct (negb _ || negb _) eqn:Hblank.
  { intros [= <- _ _]. apply row_blank in Hblank. cbn. tauto. }
  apply row_not_blank in Hblank. destruct Hblank as [Hs Ht].
  destruct (ensure_dyn headers repo _ w) as [[[[]|e|] w1] t1];
    try discriminate.
  destruct (find_issue_by_seed fuel headers repo _ w1)
    as [[[[existing|]|e|] w2] t2]; try discriminate.
  { intros [= <- _ _]. cbn. tauto. }
  destruct (dry_run args) eqn:Hdry.
  { intros [= <- _ _]. cbn. tauto. }
  cbv zeta.
  destruct (gh headers "POST" _ _ w2) as [[[resp|e|] w3] t3];
    try discriminate.
  - destruct (json resp) as [[items|fields]|]; intros [= <- _ _]; cbn;
      tauto.
  - destruct (is_Exception e); [|discriminate].
    intros [= <- _ _]. cbn. tauto.
Qed.

Lemma main_row_task {World : Type} {net : Network World} (fuel : nat)
    (headers : Headers) (repo : string) (args : Args) (idx : Z) (r : Series)
    (w w' : World) (rec : ReportRow) (t : list Event) :
  main_row fuel headers repo args idx r w = (Return rec, w', t) ->
  task rec = titulo_of r
  /\ (dry_run args = true ->
      status rec <> "created" /\ status rec <> "error").
Proof.
  rewrite main_row_run.
  destruct (negb _ || negb _).
  { intros [= <- _ _]. cbn. split; [reflexivity|]. split; discriminate. }
  destruct (ensure_dyn headers repo _ w) as [[[[]|e|] w1] t1];
    try discriminate.
  destruct (find_issue_by_seed fuel headers repo _ w1)
    as [[[[existing|]|e|] w2] t2]; try discriminate.
  { intros [= <- _ _]. cbn. split; [reflexivity|]. split; discriminate. }
  destruct (dry_run args).
  { intros [= <- _ _]. cbn. split; [reflexivity|]. split; discriminate. }
  cbv zeta.
  destruct (gh headers "POST" _ _ w2) as [[[resp|e|] w3] t3];
    try discriminate.
  - destruct (json resp) as [[items|fields]|]; intros [= <- _ _]; cbn;
      (split; [reflexivity | discriminate]).
  - destruct (is_Exception e); [|discriminate].
    intros [= <- _ _]. cbn. split; [reflexivity | discriminate].
Qed.

Lemma main_rows_tasks {World : Type} {net : Network World} (fuel : nat)
    (headers : Headers) (repo : string) (args : Args)
    (l : list (Z * Series)) (report_rows report : list ReportRow)
    (w w' : World) (t : list Event) :
  main_rows fuel headers repo args l report_rows w = (Return report, w', t) ->
  exists recs,
    report = report_rows ++ recs
    /\ map task recs = map (fun ir => titulo_of (snd ir)) l
    /\ (dry_run args = true ->
        forall rec, In rec recs ->
                    status rec <> "created" /\ status rec <> "error").
Proof.
  revert report_rows w t.
  induction l as [|[idx r] l IH]; intros report_rows w t; cbn [main_rows].
  - intros [= <- _ _]. exists []. rewrite app_nil_r.
    split; [reflexivity|]. split; [reflexivity|]. intros _ rec [].
  - intros H. apply bind_Return in H.
    destruct H as (rec & w1 & t1 & t2 & Hrow & Hrest & _).
    apply IH in Hrest. destruct Hrest as (recs & -> & Htasks & Hdry).
    apply main_row_task in Hrow. destruct Hrow as [Htask Hstatus].
    exists (rec :: recs). split; [rewrite <- app_assoc; reflexivity|].
    split.
    + cbn [map snd]. rewrite Htask, Htasks. reflexivity.
    + intros Hflag rec' [<-|Hin]; [apply Hstatus, Hflag | apply Hdry; auto].
Qed.

Lemma iterrows_from_rows (l : list Series) (idx : Z) :
  map snd (iterrows_from idx l) = l.
Proof.
  revert idx. induction l as [|r l IH]; intros idx; cbn [iterrows_from map snd].
  - reflexivity.
  - rewrite IH. reflexivity.
Qed.

(** X20.  The report of a run that returns lists the rows of the workbook
    in their order, each under its trimmed title; with [--dry-run] none of
    its records is [created] or [error].  The title is that of the row as
    the loop has it, after the sheets are joined: a whole number in a
    column that another sheet lacks is written as a float, [7.0] for 7. *)
Theorem report_lists_rows_in_order {World : Type} {net : Network World}
    (fuel : nat) (args : Args) (environ : list (string * string))
    (xl : list (string * DataFrame)) (w w' : World) (t : list Event) :
  main fuel args environ xl w = (Return tt, w', t) ->
  exists report,
    In (CsvFile "seed-report.csv" report_header report) t
    /\ map task report = map titulo_of (loaded_rows_of xl)
    /\ (dry_run args = true ->
        forall rec, In rec report ->
                    status rec <> "created" /\ status rec <> "error").
Proof.
  intros Hmain. pose proof (main_Return_startup _ _ _ _ _ _ _ Hmain) as Hok.
  rewrite (main_run fuel args environ xl Hok) in Hmain.
  apply bind_Return in Hmain.
  destruct Hmain as ([] & w1 & t1 & t2 & _ & Hmain & ->).
  apply bind_Return in Hmain.
  destruct Hmain as (report & w2 & t3 & t4 & Hrows & Hmain & ->).
  apply bind_Return in Hmain.
  destruct Hmain as ([] & w3 & t5 & t6 & Hcsv & _ & ->).
  unfold emit in Hcsv. injection Hcsv as <- <-.
  apply main_rows_tasks in Hrows.
  destruct Hrows as (recs & Hrecs & Htasks & Hdry).
  cbn [app] in Hrecs. subst recs.
  exists report. split; [|split].
  - rewrite !in_app_iff. right. right. left. left. reflexivity.
  - rewrite Htasks. unfold iterrows, loaded_rows_of.
    rewrite <- (map_map snd titulo_of), iterrows_from_rows. reflexivity.
  - exact Hdry.
Qed.

(** *** These theorems at work *)

Lemma body_ends_with_marker_of_seed_id_witness :
  endswith (build_body (sample_row "W1-01" "Setup repo" "1"))
    (seed_marker "W1-01") = true.
Proof.
  apply (body_ends_with_marker_of_seed_id (sample_row "W1-01" "Setup repo" "1")).
  vm_compute. discriminate.
Defined.

Lemma payload_labels_of_a_row_witness :
  In "seed:W1-01"
    (payload_labels
       (issue_payload "Setup repo" "" (dyn (sample_row "W1-01" "Setup repo" "1")
                                         "W1-01")))
  /\ ~ In "seed:W1:"
        (payload_labels
           (issue_payload "Setup repo" ""
              (dyn (sample_row "W1:" "Setup repo" "1") "W1:"))).
Proof.
  split.
  - destruct (payload_labels_of_a_row "Setup repo" ""
                (sample_row "W1-01" "Setup repo" "1") "W1-01")
      as (_ & _ & Hseed).
    apply Hseed; [discriminate | reflexivity].
  - destruct (payload_labels_of_a_row "Setup repo" ""
                (sample_row "W1:" "Setup repo" "1") "W1:")
      as (_ & _ & Hseed).
    intros Hin. apply Hseed in Hin; [discriminate Hin | discriminate].
Defined.

Lemma startup_failure_makes_no_call_witness :
  exists code msg,
    main 2 real_run [("GITHUB_TOKEN", "t0")] sample_xl [ok]
      = (Raise (SystemExit code), [ok], [PrintLine "stderr" msg])
    /\ (code = 2 <->
        falsy (or_else (assoc "GITHUB_TOKEN" [("GITHUB_TOKEN", "t0")])
                 (assoc "GH_TOKEN" [("GITHUB_TOKEN", "t0")]))
        || falsy (assoc "GITHUB_REPOSITORY" [("GITHUB_TOKEN", "t0")]) = true)
    /\ (code = 3 <->
        falsy (or_else (assoc "GITHUB_TOKEN" [("GITHUB_TOKEN", "t0")])
                 (assoc "GH_TOKEN" [("GITHUB_TOKEN", "t0")]))
        || falsy (assoc "GITHUB_REPOSITORY" [("GITHUB_TOKEN", "t0")]) = false).
Proof.
  apply (startup_failure_makes_no_call 2 real_run [("GITHUB_TOKEN", "t0")]
           sample_xl [ok]).
  reflexivity.
Defined.

Lemma ensure_label_creates_only_after_404_witness :
  exists e,
    ensure_label sample_headers sample_repo "Semana:1" "7289DA" None
      [server_error; created ""]
    = (Raise e, [created ""],
       [label_check sample_headers sample_repo "Semana:1"]).
Proof.
  destruct (ensure_label_creates_only_after_404 sample_headers sample_repo
              "Semana:1" "7289DA" None [server_error; created ""])
    as (_ & Hraise & _).
  eexists.
  apply (Hraise _ [created ""]
           [label_check sample_headers sample_repo "Semana:1"]).
  - reflexivity.
  - intros msg r [= _ <-]. discriminate.
Defined.

Lemma gh_returns_only_successes_witness :
  is_error_status
    (mkResponse 200 "OK" "" "{}" (Some (JObject [])) expecting_value) = false
  /\ last [Request "GET" (GH_API +++ "/rate_limit") sample_headers []]
       (Sleep 0)
     = Request "GET" (GH_API +++ "/rate_limit") sample_headers [].
Proof.
  apply (gh_returns_only_successes sample_headers "GET" "/rate_limit" []
           [ok] []).
  reflexivity.
Defined.

Lemma creation_success_is_reported_witness :
  let r := sample_row "W1-01" "Setup repo" "1" in
  main_row 1 sample_headers sample_repo real_run 0 r
    [ok; ok; listing []; created "https://tracker/issues/12"]
  = (Return (mkReportRow "created" 1 "Setup repo" "https://tracker/issues/12"
               "seed:W1-01" ""),
     [],
     [ label_check sample_headers sample_repo "Semana:1";
       label_check sample_headers sample_repo "seed:W1-01";
       listing_request sample_headers sample_repo "seed:W1-01" 0;
       issue_creation sample_headers sample_repo
         (issue_payload "Setup repo" (build_body r) (dyn r "W1-01"));
       Sleep 300 ]).
Proof.
  intros r.
  apply (creation_success_is_reported 1 sample_headers sample_repo real_run 0
           r (mkResponse 201 "Created" "" ""
                (Some (JObject [("html_url", "https://tracker/issues/12")]))
                expecting_value)
           [("html_url", "https://tracker/issues/12")]
           [ok; ok; listing []; created "https://tracker/issues/12"]
           [listing []; created "https://tracker/issues/12"]
           [created "https://tracker/issues/12"] []
           [ label_check sample_headers sample_repo "Semana:1";
             label_check sample_headers sample_repo "seed:W1-01" ]
           [ listing_request sample_headers sample_repo "seed:W1-01" 0 ]
           [ issue_creation sample_headers sample_repo
               (issue_payload "Setup repo" (build_body r) (dyn r "W1-01")) ]).
  - vm_compute. discriminate.
  - vm_compute. discriminate.
  - reflexivity.
  - reflexivity.
  - reflexivity.
  - reflexivity.
  - reflexivity.
Defined.

Lemma creation_failure_is_reported_witness :
  let r := sample_row "W1-01" "Setup repo" "1" in
  main_row 1 sample_headers sample_repo real_run 0 r
    [ok; ok; listing []; server_error]
  = (Return (mkReportRow "error" 1 "Setup repo" "" ""
               "500 Server Error: Internal Server Error for url: "),
     [],
     [ label_check sample_headers sample_repo "Semana:1";
       label_check sample_headers sample_repo "seed:W1-01";
       listing_request sample_headers sample_repo "seed:W1-01" 0;
       issue_creation sample_headers sample_repo
         (issue_payload "Setup repo" (build_body r) (dyn r "W1-01")) ]).
Proof.
  intros r.
  apply (creation_failure_is_reported 1 sample_headers sample_repo real_run 0
           r (HTTPError "500 Server Error: Internal Server Error for url: "
                (mkResponse 500 "Internal Server Error" "" "" None
                   expecting_value))
           [ok; ok; listing []; server_error]
           [listing []; server_error] [server_error] []
           [ label_check sample_headers sample_repo "Semana:1";
             label_check sample_headers sample_repo "seed:W1-01" ]
           [ listing_request sample_headers sample_repo "seed:W1-01" 0 ]
           [ issue_creation sample_headers sample_repo
               (issue_payload "Setup repo" (build_body r) (dyn r "W1-01")) ]).
  - vm_compute. discriminate.
  - vm_compute. discriminate.
  - reflexivity.
  - reflexivity.
  - reflexivity.
  - reflexivity.
  - reflexivity.
Defined.

Lemma unreadable_creation_answer_is_an_error_witness :
  let r := sample_row "W1-01" "Setup repo" "1" in
  exists msg,
    main_row 1 sample_headers sample_repo real_run 0 r
      [ok; ok; listing []; created_unreadable]
    = (Return (mkReportRow "error" 1 "Setup repo" "" "" msg), [],
       [ label_check sample_headers sample_repo "Semana:1";
         label_check sample_headers sample_repo "seed:W1-01";
         listing_request sample_headers sample_repo "seed:W1-01" 0;
         issue_creation sample_headers sample_repo
           (issue_payload "Setup repo" (build_body r) (dyn r "W1-01")) ]).
Proof.
  intros r.
  destruct (unreadable_creation_answer_is_an_error 1 sample_headers
              sample_repo real_run 0 r
              (mkResponse 201 "Created" "" "<html>" None expecting_value)
              [ok; ok; listing []; created_unreadable]
              [listing []; created_unreadable] [created_unreadable] []
              [ label_check sample_headers sample_repo "Semana:1";
                label_check sample_headers sample_repo "seed:W1-01" ]
              [ listing_request sample_headers sample_repo "seed:W1-01" 0 ]
              [ issue_creation sample_headers sample_repo
                  (issue_payload "Setup repo" (build_body r) (dyn r "W1-01")) ])
    as (msg & Hrun & _).
  - vm_compute. discriminate.
  - vm_compute. discriminate.
  - reflexivity.
  - reflexivity.
  - reflexivity.
  - reflexivity.
  - discriminate.
  - exists msg. exact Hrun.
Defined.

Lemma every_creation_attempt_is_reported_witness :
  let r := sample_row "W1-01" "Setup repo" "1" in
  let run := main_row 1 sample_headers sample_repo real_run 0 r
               [ok; ok; listing []; rate_limit; rate_limit] in
  (exists rec,
     outcome run = Return rec
     /\ (status rec = "created" \/ status rec = "error"))
  \/ (exists code, outcome run = Raise (SystemExit code)).
Proof.
  intros r run.
  apply (every_creation_attempt_is_reported 1 sample_headers sample_repo
           real_run 0 r [ok; ok; listing []; rate_limit; rate_limit]
           (issue_creation sample_headers sample_repo
              (issue_payload "Setup repo" (build_body r) (dyn r "W1-01")))).
  - vm_compute. tauto.
  - reflexivity.
Defined.

Lemma no_partial_report_witness :
  Forall (fun ev => is_report ev = false)
    (events (main 2 real_run sample_environ sample_xl
               [ok; ok; ok; ok; server_error])).
Proof.
  apply (no_partial_report 2 real_run sample_environ sample_xl
           [ok; ok; ok; ok; server_error]).
  vm_compute. discriminate.
Defined.

Lemma run_without_created_record_creates_nothing_witness :
  creates_no_issue sample_repo
    (events (main 2 real_run sample_environ sample_xl
               [ok; ok;
                ok; ok; listing [seed_issue "W1-01" "https://tracker/issues/9"];
                ok; ok; listing [seed_issue "W1-02" "https://tracker/issues/3"]])).
Proof.
  apply (run_without_created_record_creates_nothing 2 real_run sample_environ
           sample_xl
           [ok; ok;
            ok; ok; listing [seed_issue "W1-01" "https://tracker/issues/9"];
            ok; ok; listing [seed_issue "W1-02" "https://tracker/issues/3"]]
           [] _ "seed-report.csv" report_header
           [ mkReportRow "exists" 1 "Setup repo" "https://tracker/issues/9"
               "seed:W1-01" "";
             mkReportRow "exists" 2 "Write docs" "https://tracker/issues/3"
               "seed:W1-02" "" ]).
  - vm_compute. reflexivity.
  - vm_compute. repeat first [left; reflexivity | right].
  - intros rec [<-|[<-|[]]]; split; discriminate.
Defined.

Lemma missing_columns_read_as_empty_witness :
  get (hd [] (loaded_rows_of blank_xl)) "Semana" = Some (Str "").
Proof.
  apply (missing_columns_read_as_empty blank_xl
           (hd [] (loaded_rows_of blank_xl)) "Semana").
  - vm_compute. left. reflexivity.
  - cbn. tauto.
  - intros sdf [<-|[]]. reflexivity.
Defined.

Lemma workbook_without_key_column_is_skipped_witness :
  main_row 1 sample_headers sample_repo real_run 0
    (hd [] (loaded_rows_of untracked_xl)) [server_error]
  = (Return (mkReportRow "skip" 1
               (titulo_of (hd [] (loaded_rows_of untracked_xl))) ""
               "missing uid/title" ""),
     [server_error], []).
Proof.
  apply (workbook_without_key_column_is_skipped 1 sample_headers sample_repo
           real_run 0 untracked_xl (hd [] (loaded_rows_of untracked_xl))
           "Issue UID" [server_error]).
  - left. reflexivity.
  - intros sdf [<-|[]]. reflexivity.
  - vm_compute. left. reflexivity.
Defined.

Lemma record_of_a_row_witness :
  let rec := mkReportRow "exists" 1 "Setup repo" "https://tracker/issues/9"
               "seed:W1-01" "" in
  let r := sample_row "W1-01" "Setup repo" "1" in
  row rec = 0 + 1
  /\ task rec = titulo_of r
  /\ ((status rec = "skip"
       /\ (seed_uid_of r = "" \/ titulo_of r = "")
       /\ issue rec = "" /\ reason rec = "missing uid/title"
       /\ error rec = "")
      \/ (seed_uid_of r <> "" /\ titulo_of r <> ""
          /\ ((status rec = "exists"
               /\ reason rec = "seed:" +++ seed_uid_of r /\ error rec = "")
              \/ (status rec = "dry-run" /\ dry_run real_run = true
                  /\ issue rec = "" /\ reason rec = "" /\ error rec = "")
              \/ (status rec = "created" /\ dry_run real_run = false
                  /\ reason rec = "seed:" +++ seed_uid_of r
                  /\ error rec = "")
              \/ (status rec = "error" /\ dry_run real_run = false
                  /\ issue rec = "" /\ reason rec = "")))).
Proof.
  intros rec r.
  apply (record_of_a_row 1 sample_headers sample_repo real_run 0 r
           [ok; ok; listing [seed_issue "W1-01" "https://tracker/issues/9"]]
           []
           rec
           [ label_check sample_headers sample_repo "Semana:1";
             label_check sample_headers sample_repo "seed:W1-01";
             listing_request sample_headers sample_repo "seed:W1-01" 0 ]).
  reflexivity.
Defined.

Lemma report_lists_rows_in_order_witness :
  let t := events (main 2 simulated_run sample_environ mixed_xl
                     [ok; ok; ok; listing []]) in
  (exists report,
     In (CsvFile "seed-report.csv" report_header report) t
     /\ map task report = map titulo_of (loaded_rows_of mixed_xl)
     /\ (dry_run simulated_run = true ->
         forall rec, In rec report ->
                     status rec <> "created" /\ status rec <> "error"))
  /\ map titulo_of (loaded_rows_of mixed_xl) = ["7.0"; ""].
Proof.
  intros t. split.
  - apply (report_lists_rows_in_order 2 simulated_run sample_environ mixed_xl
             [ok; ok; ok; listing []] []).
    vm_compute. reflexivity.
  - vm_compute. reflexivity.
Defined.
